(** * HiOCR JNI bridge (native-lib.cpp): a shallow embedding and its properties

    The four JNI entry points of [src/main/cpp/native-lib.cpp] are embedded
    as computations over an explicit world: the JNIEnv (pending exception,
    local reference table, outstanding UTF buffers, the JNI calls made so
    far), the C++ free store, the calls made into [HiOCRAnalyzer], and what
    was written to [std::cerr].  A C++ exception that leaves a function is
    an outcome of its own, so that the statements after a throwing call are
    visibly not run. *)

From stdpp Require Import gmap strings list fin_maps.

Open Scope Z_scope.

(** ** Values exchanged over the boundary *)

(** [jlong]: the handle is only compared with 0 and cast to and from a
    pointer, never computed with, so it is carried as the integer it
    denotes. *)
Definition jlong := Z.

(** [jdouble]: an IEEE-754 binary64 carried as its 64-bit pattern; the
    bridge copies the four fields and never computes with them. *)
Definition jdouble := Z.

(** Modelled from the spec: [HiTextInfo.h] is not part of the sources; the
    native rectangle has the four double fields x, y, width, height, in the
    order of the aggregate initialiser [{x, y, width, height}]. *)
Record HiRect := mkHiRect {
  x : jdouble; y : jdouble; width : jdouble; height : jdouble }.

(** Modelled from the spec: the native text record built by
    [new HiTextInfo(std::string(textChars), rect)]. *)
Record HiTextInfo := mkHiTextInfo { text : string; bbox : HiRect }.

(** What a Java method call can do: return a reference (possibly null) or
    throw. *)
Inductive jresult (A : Type) : Type :=
| JReturn (v : option A)
| JThrow.
Arguments JReturn {A} v.
Arguments JThrow {A}.

(** [com.mwkg.hiocr.HiRect]: four double fields. *)
Record JRect := mkJRect {
  jx : jdouble; jy : jdouble; jwidth : jdouble; jheight : jdouble }.

(** [com.mwkg.hiocr.HiTextInfo] as the bridge sees it: the outcome of its
    two accessors. *)
Record JTextInfo := mkJTextInfo {
  getBBox : jresult JRect;
  getText : jresult string }.

(** A [jobjectArray] that is not null: its elements may be null. *)
Definition jarray := list (option JTextInfo).

Inductive jclass := HiTextInfo_class | HiRect_class.

(** A method identifier, typed by what the method returns. *)
Inductive jmethodID : Type -> Type :=
| getText_id : jmethodID string
| getBBox_id : jmethodID JRect.

Inductive jfieldID := x_id | y_id | width_id | height_id.

(** What a local reference of the native frame designates. *)
Inductive referent :=
| RClass (c : jclass)
| RTextInfo (o : JTextInfo)
| RRect (r : JRect)
| RString (s : string).

(** A non-null local reference: its slot in the local reference table and
    the object it designates. *)
Record jref (A : Type) := mkRef { ref_id : nat; ref_obj : A }.
Arguments mkRef {A} ref_id ref_obj.
Arguments ref_id {A} j.
Arguments ref_obj {A} j.

(** ** The native side *)

(** Objects of the C++ free store. *)
Inductive obj :=
| OAnalyzer (scanType : jlong) (licenseKey : string)
| OTextInfo (t : HiTextInfo).

(** Calls into [HiOCRAnalyzer], with [this] as the address it is called on.
    [CallAnalyze] keeps the vector of pointers and what they point to at
    the time of the call. *)
Inductive EngineCall :=
| CallConstruct (scanType : jlong) (licenseKey : string)
| CallDestruct (this : Z)
| CallAnalyze (this : Z) (textPointers : list Z)
              (pointees : list (option HiTextInfo))
| CallDecrypt (this : Z) (input : string).

(** How a C++ call ends: it returns, or an exception leaves it. *)
Inductive outcome (A : Type) : Type :=
| Returned (a : A)
| Thrown.
Arguments Returned {A} a.
Arguments Thrown {A}.

(** The engine is external and opaque: its answers are a parameter.  Each
    answer may depend on the calls made before (the engine's own state). *)
Record Engine := mkEngine {
  construct : list EngineCall -> jlong -> string -> outcome unit;
  analyzeTextData :
    list EngineCall -> Z -> list (option HiTextInfo) -> outcome string;
  decryptionData : list EngineCall -> Z -> string -> outcome string }.

(** The lines written to [std::cerr] and by [ExceptionDescribe]. *)
Inductive diag :=
| HandleIsNull
| ArrayIsNull
| MethodIdIsNull
| FailedToRetrieve (index : nat)
| ExceptionTrace.

(** The JNI functions the bridge calls. *)
Inductive jni_call :=
| J_FindClass (c : jclass)
| J_GetMethodID
| J_ExceptionCheck
| J_ExceptionDescribe
| J_ExceptionClear
| J_GetArrayLength
| J_GetObjectArrayElement (index : nat)
| J_CallObjectMethod
| J_GetStringUTFChars
| J_ReleaseStringUTFChars
| J_GetDoubleField (f : jfieldID)
| J_DeleteLocalRef (id : nat)
| J_NewStringUTF.

(** What the class loader resolves. *)
Record ClassPath := mkClassPath {
  has_HiTextInfo : bool;
  has_HiRect : bool;
  has_getText : bool;
  has_getBBox : bool }.

Record World := mkWorld {
  w_classes : ClassPath;
  w_pending : bool;               (* a Java exception is pending *)
  w_locals : gmap nat referent;   (* live local references *)
  w_utf : nat;                    (* UTF buffers obtained and not released *)
  w_heap : gmap Z obj;            (* live objects of the free store *)
  w_calls : list EngineCall;      (* oldest first *)
  w_jni : list jni_call;          (* oldest first *)
  w_cerr : list diag }.           (* oldest first *)

Definition set_pending (b : bool) (w : World) : World :=
  mkWorld (w_classes w) b (w_locals w) (w_utf w) (w_heap w)
          (w_calls w) (w_jni w) (w_cerr w).
Definition set_locals (l : gmap nat referent) (w : World) : World :=
  mkWorld (w_classes w) (w_pending w) l (w_utf w) (w_heap w)
          (w_calls w) (w_jni w) (w_cerr w).
Definition set_utf (n : nat) (w : World) : World :=
  mkWorld (w_classes w) (w_pending w) (w_locals w) n (w_heap w)
          (w_calls w) (w_jni w) (w_cerr w).
Definition set_heap (h : gmap Z obj) (w : World) : World :=
  mkWorld (w_classes w) (w_pending w) (w_locals w) (w_utf w) h
          (w_calls w) (w_jni w) (w_cerr w).
Definition add_call (c : EngineCall) (w : World) : World :=
  mkWorld (w_classes w) (w_pending w) (w_locals w) (w_utf w) (w_heap w)
          (w_calls w ++ [c]) (w_jni w) (w_cerr w).
Definition add_jni (c : jni_call) (w : World) : World :=
  mkWorld (w_classes w) (w_pending w) (w_locals w) (w_utf w) (w_heap w)
          (w_calls w) (w_jni w ++ [c]) (w_cerr w).
Definition add_cerr (d : diag) (w : World) : World :=
  mkWorld (w_classes w) (w_pending w) (w_locals w) (w_utf w) (w_heap w)
          (w_calls w) (w_jni w) (w_cerr w ++ [d]).

(** ** Computations: state passing, with the escaping C++ exception *)

Definition M (A : Type) : Type := World -> outcome A * World.

Definition ret {A} (a : A) : M A := fun w => (Returned a, w).

Definition bind {A B} (m : M A) (k : A -> M B) : M B :=
  fun w =>
    match m w with
    | (Returned a, w') => k a w'
    | (Thrown, w') => (Thrown, w')
    end.

Declare Scope cxx_scope.
Delimit Scope cxx_scope with cxx.
Notation "v <- m ; k" := (bind m (fun v => k))
  (at level 20, m at level 100, k at level 200) : cxx_scope.
Notation "m ;; k" := (bind m (fun _ => k))
  (at level 100, k at level 200, right associativity) : cxx_scope.
Open Scope cxx_scope.

Definition modify (f : World -> World) : M unit :=
  fun w => (Returned tt, f w).

(** [std::cerr << ... << std::endl] *)
Definition cerr (d : diag) : M unit := modify (add_cerr d).

(** [for (int i = 0; i < count; ++i) body], started at [i] with [n]
    iterations left; [acc] is what the body updates. *)
Fixpoint for_loop {S : Type} (n : nat) (i : nat)
         (body : nat -> S -> M S) (acc : S) : M S :=
  match n with
  | O => ret acc
  | Datatypes.S n' => acc' <- body i acc; for_loop n' (i + 1)%nat body acc'
  end.

(** A [std::string] built from a C string, and [c_str()] read back as one:
    the bytes before the first NUL. *)
Fixpoint c_str (s : string) : string :=
  match s with
  | EmptyString => EmptyString
  | String a r =>
      if Ascii.eqb a Ascii.zero then EmptyString else String a (c_str r)
  end.

Definition get : M World := fun w => (Returned w, w).

(** [throw]: the rest of the function is not run. *)
Definition throw {A} : M A := fun w => (Thrown, w).

Definition lift_outcome {A} (o : outcome A) : M A :=
  match o with
  | Returned a => ret a
  | Thrown => throw
  end.

(** ** The JNI functions, as far as the bridge uses them *)

Module JNI.

Definition called (c : jni_call) : M unit := modify (add_jni c).

(** A local reference is given a slot that is not in use. *)
Definition new_local (r : referent) : M nat :=
  fun w =>
    let id := fresh (dom (w_locals w)) in
    (Returned id, set_locals (<[id := r]> (w_locals w)) w).

Definition raise : M unit := modify (set_pending true).

Definition resolves (cp : ClassPath) (c : jclass) : bool :=
  match c with
  | HiTextInfo_class => has_HiTextInfo cp
  | HiRect_class => has_HiRect cp
  end.

Definition has_method (cp : ClassPath) {A} (m : jmethodID A) : bool :=
  match m with
  | getText_id => has_getText cp
  | getBBox_id => has_getBBox cp
  end.

(** NULL with NoClassDefFoundError pending when the class is not found. *)
Definition FindClass (c : jclass) : M (option (jref jclass)) :=
  called (J_FindClass c);;
  w <- get;
  if resolves (w_classes w) c
  then id <- new_local (RClass c); ret (Some (mkRef id c))
  else raise;; ret None.

(** NULL with NoSuchMethodError pending when the method is not found. *)
Definition GetMethodID {A} (cls : jref jclass) (m : jmethodID A)
  : M (option (jmethodID A)) :=
  called J_GetMethodID;;
  w <- get;
  if has_method (w_classes w) m then ret (Some m) else raise;; ret None.

Definition ExceptionCheck : M bool :=
  called J_ExceptionCheck;; w <- get; ret (w_pending w).

Definition ExceptionDescribe : M unit :=
  called J_ExceptionDescribe;;
  w <- get;
  if w_pending w then cerr ExceptionTrace else ret tt.

Definition ExceptionClear : M unit :=
  called J_ExceptionClear;; modify (set_pending false).

Definition GetArrayLength (arr : jarray) : M nat :=
  called J_GetArrayLength;; ret (length arr).

(** A null element gives NULL; an index out of range gives NULL with
    ArrayIndexOutOfBoundsException pending. *)
Definition GetObjectArrayElement (arr : jarray) (i : nat)
  : M (option (jref JTextInfo)) :=
  called (J_GetObjectArrayElement i);;
  match arr !! i with
  | Some (Some o) => id <- new_local (RTextInfo o); ret (Some (mkRef id o))
  | Some None => ret None
  | None => raise;; ret None
  end.

Definition invoke {A} (m : jmethodID A) (o : JTextInfo) : jresult A :=
  match m with
  | getText_id => getText o
  | getBBox_id => getBBox o
  end.

Definition box {A} (m : jmethodID A) : A -> referent :=
  match m with
  | getText_id => RString
  | getBBox_id => RRect
  end.

(** The method returns a reference, returns null, or throws: then the
    exception is pending and the result is NULL. *)
Definition CallObjectMethod {A} (o : jref JTextInfo) (m : jmethodID A)
  : M (option (jref A)) :=
  called J_CallObjectMethod;;
  match invoke m (ref_obj o) with
  | JReturn (Some a) => id <- new_local (box m a); ret (Some (mkRef id a))
  | JReturn None => ret None
  | JThrow => raise;; ret None
  end.

(** The buffer is always obtained: running out of memory is not modelled,
    and the string is not null. *)
Definition GetStringUTFChars (s : string) : M string :=
  called J_GetStringUTFChars;;
  modify (fun w => set_utf (S (w_utf w)) w);;
  ret s.

Definition ReleaseStringUTFChars (s : string) (chars : string) : M unit :=
  called J_ReleaseStringUTFChars;;
  modify (fun w => set_utf (Nat.pred (w_utf w)) w).

(** [GetDoubleField(obj, GetFieldID(hiRectClass, name, "D"))]: the class
    [HiRect] has the four double fields. *)
Definition GetDoubleField (o : jref JRect) (f : jfieldID) : M jdouble :=
  called (J_GetDoubleField f);;
  ret (match f with
       | x_id => jx (ref_obj o)
       | y_id => jy (ref_obj o)
       | width_id => jwidth (ref_obj o)
       | height_id => jheight (ref_obj o)
       end).

Definition GetFieldID (cls : jref jclass) (f : jfieldID) : jfieldID := f.

Definition DeleteLocalRef {A} (r : jref A) : M unit :=
  called (J_DeleteLocalRef (ref_id r));;
  modify (fun w => set_locals (delete (ref_id r) (w_locals w)) w).

Definition NewStringUTF (s : string) : M (option (jref string)) :=
  called J_NewStringUTF;;
  id <- new_local (RString s);
  ret (Some (mkRef id s)).

End JNI.

(** ** The C++ free store and the engine *)

(** [operator new] gives an address that is neither null nor in use;
    running out of memory is not modelled. *)
Definition new_addr (h : gmap Z obj) : Z := fresh ({[0]} ∪ dom h).

Definition new_obj (o : obj) : M Z :=
  fun w =>
    let p := new_addr (w_heap w) in
    (Returned p, set_heap (<[p := o]> (w_heap w)) w).

Definition delete_obj (p : Z) : M unit :=
  modify (fun w => set_heap (delete p (w_heap w)) w).

Definition read_TextInfo (h : gmap Z obj) (p : Z) : option HiTextInfo :=
  match h !! p with
  | Some (OTextInfo t) => Some t
  | _ => None
  end.

(** [new HiOCRAnalyzer(scanType, licenseKeyStr)]: when the constructor
    throws, the storage is given back and the exception leaves. *)
Definition new_HiOCRAnalyzer (E : Engine) (scanType : jlong) (key : string)
  : M Z :=
  w <- get;
  modify (add_call (CallConstruct scanType key));;
  lift_outcome (construct E (w_calls w) scanType key);;
  new_obj (OAnalyzer scanType key).

(** [delete analyzer]: the destructor, then the storage.  Whatever lives at
    the address is removed: the bridge keeps no table of live engines. *)
Definition delete_HiOCRAnalyzer (analyzer : Z) : M unit :=
  modify (add_call (CallDestruct analyzer));;
  delete_obj analyzer.

Definition new_HiTextInfo (s : string) (rect : HiRect) : M Z :=
  new_obj (OTextInfo (mkHiTextInfo s rect)).

(** [analyzer->analyzeTextData(textPointers)] *)
Definition call_analyzeTextData (E : Engine) (analyzer : Z)
           (textPointers : list Z) : M string :=
  w <- get;
  let pointees := read_TextInfo (w_heap w) <$> textPointers in
  modify (add_call (CallAnalyze analyzer textPointers pointees));;
  lift_outcome (analyzeTextData E (w_calls w) analyzer pointees).

(** [analyzer->decryptionData(inputStr)] *)
Definition call_decryptionData (E : Engine) (analyzer : Z) (input : string)
  : M string :=
  w <- get;
  modify (add_call (CallDecrypt analyzer input));;
  lift_outcome (decryptionData E (w_calls w) analyzer input).

(** [for (HiTextInfo* textInfo : textPointers) delete textInfo;] *)
Fixpoint delete_each (textPointers : list Z) : M unit :=
  match textPointers with
  | [] => ret tt
  | textInfo :: rest => delete_obj textInfo;; delete_each rest
  end.

(** ** The four entry points of native-lib.cpp

    [env] is the world the computation runs in; [thiz] is not used. *)

Definition Java_com_mwkg_hiocr_HiOCR_destroyNativeAnalyzer (handle : jlong)
  : M unit :=
  if handle =? 0 then
    cerr HandleIsNull;;
    ret tt
  else
    let analyzer := handle in          (* reinterpret_cast *)
    delete_HiOCRAnalyzer analyzer.

(** [licenseKey] is the string the Java side passes; it is not null. *)
Definition Java_com_mwkg_hiocr_HiOCR_createNativeAnalyzer (E : Engine)
           (scanType : jlong) (licenseKey : string) : M jlong :=
  licenseKeyCStr <- JNI.GetStringUTFChars licenseKey;
  let licenseKeyStr := c_str licenseKeyCStr in
  JNI.ReleaseStringUTFChars licenseKey licenseKeyCStr;;
  analyzer <- new_HiOCRAnalyzer E scanType licenseKeyStr;
  ret analyzer.                        (* reinterpret_cast *)

(** One turn of the loop of lines 69-107; [continue] is the return of the
    vector as it is.  In [!bboxObj || env->ExceptionCheck()] the check is
    made only when the reference is not null. *)
Definition extract_element (hiRectClass : jref jclass)
           (getTextMethod : jmethodID string)
           (getBBoxMethod : jmethodID JRect)
           (textInfoArray : jarray) (i : nat) (textPointers : list Z)
  : M (list Z) :=
  hiTextInfoObj <- JNI.GetObjectArrayElement textInfoArray i;
  match hiTextInfoObj with
  | None =>
      cerr (FailedToRetrieve i);;
      ret textPointers
  | Some hiTextInfoObj =>
      let no_bbox :=                                     (* lines 78-81 *)
        JNI.ExceptionDescribe;;
        JNI.ExceptionClear;;
        JNI.DeleteLocalRef hiTextInfoObj;;
        ret textPointers in
      bboxObj <- JNI.CallObjectMethod hiTextInfoObj getBBoxMethod;
      match bboxObj with
      | None => no_bbox
      | Some bboxObj =>
      pending <- JNI.ExceptionCheck;
      if pending then no_bbox else
      let no_text :=                                     (* lines 86-90 *)
        JNI.ExceptionDescribe;;
        JNI.ExceptionClear;;
        JNI.DeleteLocalRef hiTextInfoObj;;
        JNI.DeleteLocalRef bboxObj;;
        ret textPointers in
      text <- JNI.CallObjectMethod hiTextInfoObj getTextMethod;
      match text with
      | None => no_text
      | Some text =>
      pending <- JNI.ExceptionCheck;
      if pending then no_text else
      textChars <- JNI.GetStringUTFChars (ref_obj text);
      x <- JNI.GetDoubleField bboxObj (JNI.GetFieldID hiRectClass x_id);
      y <- JNI.GetDoubleField bboxObj (JNI.GetFieldID hiRectClass y_id);
      width <- JNI.GetDoubleField bboxObj
                 (JNI.GetFieldID hiRectClass width_id);
      height <- JNI.GetDoubleField bboxObj
                  (JNI.GetFieldID hiRectClass height_id);
      let rect := mkHiRect x y width height in
      textInfo <- new_HiTextInfo (c_str textChars) rect;
      let textPointers := textPointers ++ [textInfo] in  (* push_back *)
      JNI.ReleaseStringUTFChars (ref_obj text) textChars;;
      JNI.DeleteLocalRef hiTextInfoObj;;
      JNI.DeleteLocalRef bboxObj;;
      ret textPointers
      end
      end
  end.

(** Lines 67-107: the vector of pointers, filled by the loop. *)
Definition extract (hiRectClass : jref jclass)
           (getTextMethod : jmethodID string)
           (getBBoxMethod : jmethodID JRect)
           (textInfoArray : jarray) : M (list Z) :=
  let textPointers := [] in
  count <- JNI.GetArrayLength textInfoArray;
  for_loop count 0%nat
    (extract_element hiRectClass getTextMethod getBBoxMethod textInfoArray)
    textPointers.

Definition Java_com_mwkg_hiocr_HiOCR_analyzeTextDataNative (E : Engine)
           (handle : jlong) (textInfoArray : option jarray)
  : M (option (jref string)) :=
  if handle =? 0 then
    cerr HandleIsNull;;
    ret None
  else
  match textInfoArray with
  | None =>
      cerr ArrayIsNull;;
      ret None
  | Some textInfoArray =>
      let lookup_failed :=                               (* lines 54-56 *)
        JNI.ExceptionDescribe;;
        JNI.ExceptionClear;;
        ret None in
      hiTextInfoClass <- JNI.FindClass HiTextInfo_class;
      hiRectClass <- JNI.FindClass HiRect_class;
      match hiTextInfoClass, hiRectClass with
      | Some hiTextInfoClass, Some hiRectClass =>
      pending <- JNI.ExceptionCheck;
      if pending then lookup_failed else
      getTextMethod <- JNI.GetMethodID hiTextInfoClass getText_id;
      getBBoxMethod <- JNI.GetMethodID hiTextInfoClass getBBox_id;
      match getTextMethod, getBBoxMethod with
      | Some getTextMethod, Some getBBoxMethod =>
          textPointers <-
            extract hiRectClass getTextMethod getBBoxMethod textInfoArray;
          let analyzer := handle in              (* reinterpret_cast *)
          result <- call_analyzeTextData E analyzer textPointers;
          delete_each textPointers;;
          JNI.NewStringUTF (c_str result)
      | _, _ =>
          cerr MethodIdIsNull;;
          ret None
      end
      | _, _ => lookup_failed
      end
  end.

Definition Java_com_mwkg_hiocr_HiOCR_decryptionDataNative (E : Engine)
           (handle : jlong) (input : string) : M (option (jref string)) :=
  if handle =? 0 then
    cerr HandleIsNull;;
    ret None
  else
    pcInput <- JNI.GetStringUTFChars input;
    let inputStr := c_str pcInput in
    JNI.ReleaseStringUTFChars input pcInput;;
    let analyzer := handle in            (* reinterpret_cast *)
    decrypted <- call_decryptionData E analyzer inputStr;
    JNI.NewStringUTF (c_str decrypted).

(** Short names for the entry points. *)
Abbreviation destroyNativeAnalyzer :=
  Java_com_mwkg_hiocr_HiOCR_destroyNativeAnalyzer.
Abbreviation createNativeAnalyzer :=
  Java_com_mwkg_hiocr_HiOCR_createNativeAnalyzer.
Abbreviation analyzeTextDataNative :=
  Java_com_mwkg_hiocr_HiOCR_analyzeTextDataNative.
Abbreviation decryptionDataNative :=
  Java_com_mwkg_hiocr_HiOCR_decryptionDataNative.

(** ** Sample worlds, engines and records *)

Definition full_classpath : ClassPath := mkClassPath true true true true.

(** The world a native method is entered in: nothing pending, an empty
    local frame, an empty free store. *)
Definition fresh_world (cp : ClassPath) : World :=
  mkWorld cp false ∅ 0 ∅ [] [] [].

Definition echo_engine : Engine :=
  mkEngine (fun _ _ _ => Returned tt)
           (fun _ _ _ => Returned "ok"%string)
           (fun _ _ s => Returned s).

(** An engine whose analysis and constructor throw. *)
Definition failing_engine : Engine :=
  mkEngine (fun _ _ _ => Thrown)
           (fun _ _ _ => Thrown)
           (fun _ _ _ => Thrown).

Definition rec_of (s : string) (a b c d : Z) : option JTextInfo :=
  Some (mkJTextInfo (JReturn (Some (mkJRect a b c d))) (JReturn (Some s))).

(** ** What the claims speak of *)

(** The native copy of a record whose two accessors both return a
    reference. *)
Definition to_native (o : JTextInfo) : option HiTextInfo :=
  match getBBox o, getText o with
  | JReturn (Some r), JReturn (Some s) =>
      Some (mkHiTextInfo (c_str s)
              (mkHiRect (jx r) (jy r) (jwidth r) (jheight r)))
  | _, _ => None
  end.

Definition copy_of (e : option JTextInfo) : option HiTextInfo :=
  match e with
  | Some o => to_native o
  | None => None
  end.

(** Well-formed: the element is not null, its box and its text are not
    null, and no accessor throws. *)
Definition well_formed (e : option JTextInfo) : bool :=
  match e with
  | Some (mkJTextInfo (JReturn (Some _)) (JReturn (Some _))) => true
  | _ => false
  end.

(** An accessor call of the record fails: [getBBox] throws, or it returns a
    box and [getText] throws ([getText] is not called without a box). *)
Definition accessor_throws (o : JTextInfo) : bool :=
  match getBBox o with
  | JThrow => true
  | JReturn (Some _) =>
      match getText o with
      | JThrow => true
      | JReturn _ => false
      end
  | JReturn None => false
  end.

(** All four per-call lookups of [analyzeTextDataNative] succeed. *)
Definition lookups_succeed (cp : ClassPath) : bool :=
  has_HiTextInfo cp && has_HiRect cp && has_getText cp && has_getBBox cp.

(** The addresses and the free store after the records [ts] were allocated
    one after the other. *)
Fixpoint store_all (ts : list HiTextInfo) (h : gmap Z obj)
  : list Z * gmap Z obj :=
  match ts with
  | [] => ([], h)
  | t :: rest =>
      let p := new_addr h in
      let '(ps, h') := store_all rest (<[p := OTextInfo t]> h) in
      (p :: ps, h')
  end.

Definition delete_all (ps : list Z) (h : gmap Z obj) : gmap Z obj :=
  foldl (fun h p => delete p h) h ps.


Definition sample_class : jref jclass := mkRef 1%nat HiRect_class.

(** A record whose [getBBox] throws. *)
Definition throwing_record : option JTextInfo :=
  Some (mkJTextInfo JThrow (JReturn (Some "c"%string))).

(** The world after [createNativeAnalyzer] made one engine: it lives at
    address 1. *)
Definition world_with_engine : World :=
  (createNativeAnalyzer echo_engine 2 "key" (fresh_world full_classpath)).2.

(** The indices passed to [GetObjectArrayElement], in the order of the
    calls. *)
Definition retrieved_indices (js : list jni_call) : list nat :=
  omap (fun c => match c with
                 | J_GetObjectArrayElement i => Some i
                 | _ => None
                 end) js.

(** The indices reported on [std::cerr] as failed to retrieve. *)
Definition reported_indices (ds : list diag) : list nat :=
  omap (fun d => match d with
                 | FailedToRetrieve i => Some i
                 | _ => None
                 end) ds.

(** The indices of the null elements of an array whose first element has
    index [i]. *)
Fixpoint null_indices_from (i : nat) (arr : jarray) : list nat :=
  match arr with
  | [] => []
  | None :: rest => i :: null_indices_from (S i) rest
  | Some _ :: rest => null_indices_from (S i) rest
  end.


(** ** The free store *)

Section free_store.
Implicit Types (h : gmap Z obj) (ps : list Z) (ts : list HiTextInfo).

Lemma new_addr_fresh h : h !! new_addr h = None.
Proof.
  apply not_elem_of_dom. unfold new_addr.
  pose proof (is_fresh ({[0]} ∪ dom h)). set_solver.
Qed.

Lemma new_addr_not_null h : new_addr h ≠ 0.
Proof.
  unfold new_addr. pose proof (is_fresh ({[0]} ∪ dom h)) as Hf.
  intros Heq. rewrite Heq in Hf. set_solver.
Qed.

Lemma store_all_length ts h : length (store_all ts h).1 = length ts.
Proof.
  revert h. induction ts as [|t ts IH]; intros h; simpl; [done|].
  specialize (IH (<[new_addr h := OTextInfo t]> h)).
  destruct (store_all ts _) as [ps h']. simpl in *. by rewrite IH.
Qed.

Lemma store_all_extends ts h : h ⊆ (store_all ts h).2.
Proof.
  revert h. induction ts as [|t ts IH]; intros h; simpl; [done|].
  specialize (IH (<[new_addr h := OTextInfo t]> h)).
  destruct (store_all ts _) as [ps h']. simpl in *.
  etrans; [|exact IH]. apply insert_subseteq, new_addr_fresh.
Qed.

Lemma store_all_pointees ts h :
  read_TextInfo (store_all ts h).2 <$> (store_all ts h).1 = Some <$> ts.
Proof.
  revert h. induction ts as [|t ts IH]; intros h; simpl; [done|].
  pose proof (store_all_extends ts (<[new_addr h := OTextInfo t]> h)) as Hsub.
  specialize (IH (<[new_addr h := OTextInfo t]> h)).
  destruct (store_all ts _) as [ps h']. simpl in *. f_equal; [|done].
  unfold read_TextInfo.
  rewrite (lookup_weaken _ _ (new_addr h) (OTextInfo t)
             (lookup_insert_eq _ _ _) Hsub). done.
Qed.

Lemma store_all_app ts1 ts2 h :
  store_all (ts1 ++ ts2) h =
  let '(ps1, h1) := store_all ts1 h in
  let '(ps2, h2) := store_all ts2 h1 in
  (ps1 ++ ps2, h2).
Proof.
  revert h. induction ts1 as [|t ts1 IH]; intros h; simpl.
  - by destruct (store_all ts2 h).
  - rewrite IH. destruct (store_all ts1 _) as [ps1 h1].
    by destruct (store_all ts2 h1).
Qed.

Lemma delete_all_delete ps p h :
  delete_all ps (delete p h) = delete p (delete_all ps h).
Proof.
  revert h. induction ps as [|q ps IH]; intros h; simpl; [done|].
  by rewrite <- IH, delete_delete.
Qed.

Lemma delete_all_store_all ts h :
  delete_all (store_all ts h).1 (store_all ts h).2 = h.
Proof.
  revert h. induction ts as [|t ts IH]; intros h; simpl; [done|].
  specialize (IH (<[new_addr h := OTextInfo t]> h)).
  destruct (store_all ts _) as [ps h']. simpl in *.
  rewrite delete_all_delete, IH.
  apply delete_insert_id, new_addr_fresh.
Qed.
End free_store.

(** Running a computation: the world is taken apart once, and the bridge's
    own definitions are unfolded; the operations on maps stay folded. *)
Ltac run :=
  cbv beta iota zeta delta
    [extract_element extract
     JNI.called JNI.new_local JNI.raise JNI.FindClass JNI.GetMethodID
     JNI.ExceptionCheck JNI.ExceptionDescribe JNI.ExceptionClear
     JNI.GetArrayLength JNI.GetObjectArrayElement JNI.invoke JNI.box
     JNI.CallObjectMethod JNI.GetStringUTFChars JNI.ReleaseStringUTFChars
     JNI.GetDoubleField JNI.GetFieldID JNI.DeleteLocalRef JNI.NewStringUTF
     JNI.resolves JNI.has_method
     new_obj delete_obj new_HiOCRAnalyzer delete_HiOCRAnalyzer new_HiTextInfo
     call_analyzeTextData call_decryptionData
     bind ret modify get throw lift_outcome cerr
     set_pending set_locals set_utf set_heap add_call add_jni add_cerr
     w_classes w_pending w_locals w_utf w_heap w_calls w_jni w_cerr
     ref_id ref_obj getBBox getText fst snd Nat.pred].

Ltac done_run :=
  cbn [store_all option_list copy_of to_native getBBox getText fst snd];
  eexists; split;
  [first [reflexivity | rewrite app_nil_r; reflexivity]
  |by repeat split].

Section extraction.
Variable hiRectClass : jref jclass.
Variable arr : jarray.

Local Abbreviation body := (extract_element hiRectClass getText_id getBBox_id arr).

Lemma extract_element_run i tp w e :
  arr !! i = Some e →
  let ts := option_list (if w_pending w then None else copy_of e) in
  ∃ w', body i tp w = (Returned (tp ++ (store_all ts (w_heap w)).1), w')
    ∧ w_heap w' = (store_all ts (w_heap w)).2
    ∧ w_pending w' = (if e is Some _ then false else w_pending w)
    ∧ w_calls w' = w_calls w
    ∧ w_classes w' = w_classes w
    ∧ w_utf w' = w_utf w.
Proof.
  intros Hi. destruct w as [cp pe lo ut he ca jn ce].
  destruct e as [[bb tx]|]; run; rewrite Hi; run.
  - destruct bb as [[r|]|], pe; run; try solve [done_run].
    all: destruct tx as [[s|]|]; run; done_run.
  - destruct pe; done_run.
Qed.

Lemma for_loop_extract n : ∀ i tp w,
  (i + n)%nat = length arr →
  w_pending w = false →
  let ts := omap copy_of (drop i arr) in
  ∃ w', for_loop n i body tp w
        = (Returned (tp ++ (store_all ts (w_heap w)).1), w')
    ∧ w_heap w' = (store_all ts (w_heap w)).2
    ∧ w_pending w' = false
    ∧ w_calls w' = w_calls w
    ∧ w_classes w' = w_classes w
    ∧ w_utf w' = w_utf w.
Proof.
  induction n as [|n IH]; intros i tp w Hlen Hpe; simpl.
  - rewrite drop_ge by lia. simpl. rewrite app_nil_r. by eexists.
  - destruct (lookup_lt_is_Some_2 arr i) as [e He]; [lia|].
    rewrite (drop_S _ _ _ He). simpl.
    replace (drop (S i) arr) with (drop (i + 1) arr) by (f_equal; lia).
    destruct (extract_element_run i tp w e He)
      as (w1 & Hrun & Hheap & Hpe1 & Hcalls & Hcp & Hutf).
    rewrite Hpe in Hrun, Hheap.
    assert (w_pending w1 = false) as Hpe1'
      by (rewrite Hpe1, Hpe; by destruct e).
    unfold bind at 1. rewrite Hrun.
    destruct (IH (i + 1)%nat (tp ++ (store_all (option_list (copy_of e)) (w_heap w)).1) w1)
      as (w2 & Hrun2 & Hheap2 & Hpe2 & Hcalls2 & Hcp2 & Hutf2);
      [lia|done|].
    rewrite Hheap in Hrun2, Hheap2.
    exists w2. rewrite Hrun2, Hheap2, Hpe2, Hcalls2, Hcp2, Hutf2.
    assert (∀ l, (match copy_of e with Some y => y :: l | None => l end)
                 = option_list (copy_of e) ++ l) as Hcons
      by (intros l; by destruct (copy_of e)).
    rewrite Hcons, store_all_app.
    destruct (store_all (option_list (copy_of e)) (w_heap w)) as [ps1 h1].
    simpl. destruct (store_all _ h1) as [ps2 h2]. simpl.
    rewrite app_assoc. by repeat split.
Qed.

Lemma for_loop_extract_bound n : ∀ i tp w,
  (i + n ≤ length arr)%nat →
  ∃ ps w', for_loop n i body tp w = (Returned (tp ++ ps), w')
    ∧ (length ps ≤ n)%nat
    ∧ w_calls w' = w_calls w.
Proof.
  induction n as [|n IH]; intros i tp w Hlen; simpl.
  - exists [], w. by rewrite app_nil_r.
  - destruct (lookup_lt_is_Some_2 arr i) as [e He]; [lia|].
    destruct (extract_element_run i tp w e He)
      as (w1 & Hrun & _ & _ & Hcalls & _).
    unfold bind at 1. rewrite Hrun.
    set (ts := option_list _) in *.
    destruct (IH (i + 1)%nat (tp ++ (store_all ts (w_heap w)).1) w1)
      as (ps & w2 & Hrun2 & Hle & Hcalls2); [lia|].
    exists ((store_all ts (w_heap w)).1 ++ ps), w2.
    rewrite Hrun2, app_assoc, length_app, store_all_length, Hcalls2.
    split; [done|]. split; [|done].
    assert (length ts ≤ 1)%nat
      by (subst ts; destruct (if w_pending w then _ else _); simpl; lia).
    lia.
Qed.
End extraction.

(** Running an entry point: as [run], with the loop kept folded. *)
Ltac run_top :=
  cbv beta iota zeta delta
    [JNI.called JNI.new_local JNI.raise JNI.FindClass JNI.GetMethodID
     JNI.ExceptionCheck JNI.ExceptionDescribe JNI.ExceptionClear
     JNI.GetStringUTFChars JNI.ReleaseStringUTFChars JNI.NewStringUTF
     JNI.resolves JNI.has_method
     new_obj delete_obj new_HiOCRAnalyzer delete_HiOCRAnalyzer
     call_analyzeTextData call_decryptionData
     bind ret modify get throw lift_outcome cerr
     set_pending set_locals set_utf set_heap add_call add_jni add_cerr
     w_classes w_pending w_locals w_utf w_heap w_calls w_jni w_cerr
     has_HiTextInfo has_HiRect has_getText has_getBBox full_classpath
     ref_id ref_obj Nat.pred].

Lemma delete_each_run ps w :
  delete_each ps w = (Returned tt, set_heap (delete_all ps (w_heap w)) w).
Proof.
  revert w. induction ps as [|p ps IH]; intros w; simpl.
  - by destruct w.
  - unfold bind, delete_obj, modify. rewrite IH. by destruct w.
Qed.

Lemma extract_run hiRectClass arr w :
  w_pending w = false →
  let ts := omap copy_of arr in
  ∃ w', extract hiRectClass getText_id getBBox_id arr w
        = (Returned (store_all ts (w_heap w)).1, w')
    ∧ w_heap w' = (store_all ts (w_heap w)).2
    ∧ w_pending w' = false
    ∧ w_calls w' = w_calls w
    ∧ w_classes w' = w_classes w
    ∧ w_utf w' = w_utf w.
Proof.
  intros Hpe. unfold extract, JNI.GetArrayLength, JNI.called, modify.
  unfold bind at 1 2. unfold ret at 1.
  destruct (for_loop_extract hiRectClass arr (length arr) 0 []
              (add_jni J_GetArrayLength w)) as (w' & Hrun & Hrest);
    [done|by destruct w|].
  rewrite drop_0 in Hrun, Hrest. exists w'. split; [exact Hrun|].
  by destruct w.
Qed.

Lemma extract_bound hiRectClass arr w :
  ∃ ps w', extract hiRectClass getText_id getBBox_id arr w = (Returned ps, w')
    ∧ (length ps ≤ length arr)%nat
    ∧ w_calls w' = w_calls w.
Proof.
  unfold extract, JNI.GetArrayLength, JNI.called, modify.
  unfold bind at 1 2. unfold ret at 1.
  destruct (for_loop_extract_bound hiRectClass arr (length arr) 0 []
              (add_jni J_GetArrayLength w)) as (ps & w' & Hrun & Hle & Hc);
    [done|].
  exists ps, w'. split; [exact Hrun|]. split; [done|]. by destruct w.
Qed.

Section analyze.
Variable E : Engine.

Lemma analyze_run handle arr w :
  handle ≠ 0 →
  w_classes w = full_classpath →
  w_pending w = false →
  let ts := omap copy_of arr in
  let ps := (store_all ts (w_heap w)).1 in
  ∃ r w',
    analyzeTextDataNative E handle (Some arr) w = (r, w')
    ∧ w_calls w' = w_calls w ++ [CallAnalyze handle ps (Some <$> ts)]
    ∧ match analyzeTextData E (w_calls w) handle (Some <$> ts) with
      | Returned s =>
          (∃ ref, r = Returned (Some ref) ∧ ref_obj ref = c_str s)
          ∧ w_heap w' = w_heap w
      | Thrown =>
          r = Thrown ∧ w_heap w' = (store_all ts (w_heap w)).2
      end.
Proof.
  intros Hh Hcp Hpe ts ps. subst ts ps.
  destruct w as [cp pe lo ut he ca jn ce]. simpl in Hcp, Hpe. subst cp pe.
  simpl w_heap. simpl w_calls.
  unfold Java_com_mwkg_hiocr_HiOCR_analyzeTextDataNative.
  rewrite (proj2 (Z.eqb_neq handle 0) Hh). run_top.
  match goal with
  | |- context [extract ?c _ _ _ ?W] =>
      destruct (extract_run c arr W) as (w1 & Hrun & Hheap & Hpe1 & Hca & _);
      [reflexivity|]
  end.
  simpl in Hrun, Hheap, Hca. rewrite Hrun.
  destruct w1 as [cp1 pe1 lo1 ut1 he1 ca1 jn1 ce1].
  simpl in Hheap, Hpe1, Hca. subst he1 pe1 ca1. run_top.
  rewrite (store_all_pointees (omap copy_of arr) he).
  destruct (analyzeTextData E ca handle _) as [s|]; run_top.
  - rewrite delete_each_run. run_top.
    eexists _, _. split; [reflexivity|]. simpl. split; [done|].
    split; [by eexists|]. apply delete_all_store_all.
  - eexists _, _. split; [reflexivity|]. by simpl.
Qed.
End analyze.

(** ** Local references *)

Section local_references.
Implicit Types (lo : gmap nat referent).

Lemma fresh_local lo : lo !! fresh (dom lo) = None.
Proof. apply not_elem_of_dom, is_fresh. Qed.

(** A reference taken and deleted leaves the table as it was. *)
Lemma take_delete lo r : delete (fresh (dom lo)) (<[fresh (dom lo) := r]> lo) = lo.
Proof. apply delete_insert_id, fresh_local. Qed.

Lemma take2_delete2 lo r1 r2 :
  let id1 := fresh (dom lo) in
  let lo1 := <[id1 := r1]> lo in
  let id2 := fresh (dom lo1) in
  delete id2 (delete id1 (<[id2 := r2]> lo1)) = lo.
Proof.
  intros id1 lo1 id2. subst id2.
  rewrite delete_delete, (take_delete lo1 r2). apply take_delete.
Qed.

End local_references.

Section element_references.
Variable hiRectClass : jref jclass.
Variable arr : jarray.

End element_references.

(** ** Well-formed records and their copies *)

Lemma well_formed_copy e : well_formed e = true → is_Some (copy_of e).
Proof. by destruct e as [[[[r|]|] [[s|]|]]|]. Qed.

Lemma not_well_formed_copy e : well_formed e = false → copy_of e = None.
Proof. by destruct e as [[[[r|]|] [[s|]|]]|]. Qed.

Lemma omap_copy_well_formed (arr : jarray) :
  Forall (λ e, well_formed e = true) arr →
  Some <$> omap copy_of arr = copy_of <$> arr.
Proof.
  induction 1 as [|e arr He _ IH]; [done|].
  destruct (well_formed_copy e He) as [t Ht]. simpl. rewrite Ht.
  rewrite !fmap_cons. by f_equal.
Qed.

Lemma copies_are_there (arr : jarray) :
  Forall (λ e, well_formed e = true) arr →
  Forall is_Some (copy_of <$> arr).
Proof.
  intros H. apply Forall_fmap. eapply Forall_impl; [exact H|].
  intros e. apply well_formed_copy.
Qed.

Lemma lookups_succeed_full cp : lookups_succeed cp = true → cp = full_classpath.
Proof. by destruct cp as [[] [] [] []]. Qed.

(** ** Releasing the records *)

Section release.
Variable E : Engine.

(** The exits of [analyzeTextDataNative] before the loop. *)
Lemma analyze_early_exit handle textInfoArray w :
  lookups_succeed (w_classes w) && negb (w_pending w) = false →
  ∃ w' js,
    analyzeTextDataNative E handle textInfoArray w = (Returned None, w')
    ∧ w_jni w' = w_jni w ++ js
    ∧ (∀ i, J_GetObjectArrayElement i ∉ js)
    ∧ w_heap w' = w_heap w
    ∧ w_calls w' = w_calls w.
Proof.
  intros Hcp. destruct w as [[c1 c2 m1 m2] pe lo ut he ca jn ce].
  unfold Java_com_mwkg_hiocr_HiOCR_analyzeTextDataNative.
  destruct (handle =? 0); [|destruct textInfoArray as [arr|]].
  1, 3: run_top; eexists _, []; rewrite app_nil_r;
        split; [reflexivity|]; simpl; repeat split; set_solver.
  destruct c1, c2, m1, m2, pe; try discriminate Hcp; run_top.
  all: eexists _, _; split; [reflexivity|]; simpl;
       rewrite <- ?app_assoc; simpl; split; [reflexivity|].
  all: split; [|done].
  all: intros i Hin; repeat (apply elem_of_cons in Hin as [Hin|Hin];
                             [discriminate Hin|]);
       by apply elem_of_nil in Hin.
Qed.

(** Whenever [analyzeTextDataNative] returns, the free store is as it was
    on entry: every record the call allocated has been deleted. *)
Lemma analyze_releases_on_return handle textInfoArray w r w' :
  analyzeTextDataNative E handle textInfoArray w = (Returned r, w') →
  w_heap w' = w_heap w.
Proof.
  intros Hrun.
  destruct (lookups_succeed (w_classes w) && negb (w_pending w)) eqn:Hok.
  - apply andb_true_iff in Hok as [Hcp Hpe].
    apply negb_true_iff in Hpe.
    destruct (decide (handle = 0)) as [->|Hh].
    { destruct w. by injection Hrun as _ <-. }
    destruct textInfoArray as [arr|].
    2: { unfold Java_com_mwkg_hiocr_HiOCR_analyzeTextDataNative in Hrun.
         rewrite (proj2 (Z.eqb_neq handle 0) Hh) in Hrun.
         destruct w. by injection Hrun as _ <-. }
    destruct (analyze_run E handle arr w Hh (lookups_succeed_full _ Hcp) Hpe)
      as (r1 & w1 & Hrun1 & _ & Hcase).
    pose proof (eq_trans (eq_sym Hrun) Hrun1) as Heq.
    injection Heq as <- <-.
    destruct (analyzeTextData E _ _ _); [by destruct Hcase|].
    by destruct Hcase.
  - destruct (analyze_early_exit handle textInfoArray w Hok)
      as (w1 & js & Hrun1 & _ & _ & Hheap & _).
    pose proof (eq_trans (eq_sym Hrun) Hrun1) as Heq.
    by injection Heq as _ <-.
Qed.

(** When [analyzeTextData] throws, the exception leaves
    [analyzeTextDataNative] and every record allocated by the loop is
    still in the free store. *)
Lemma analyze_keeps_records_when_engine_throws handle arr w :
  handle ≠ 0 →
  lookups_succeed (w_classes w) = true →
  w_pending w = false →
  let ts := omap copy_of arr in
  analyzeTextData E (w_calls w) handle (Some <$> ts) = Thrown →
  ∃ w', analyzeTextDataNative E handle (Some arr) w = (Thrown, w')
        ∧ w_heap w' = (store_all ts (w_heap w)).2
        ∧ read_TextInfo (w_heap w') <$> (store_all ts (w_heap w)).1
          = Some <$> ts.
Proof.
  intros Hh Hcp Hpe ts Hthrow.
  destruct (analyze_run E handle arr w Hh (lookups_succeed_full _ Hcp) Hpe)
    as (r & w' & Hrun & _ & Hcase).
  fold ts in Hcase. rewrite Hthrow in Hcase. destruct Hcase as [-> Hheap].
  exists w'. split; [exact Hrun|]. split; [exact Hheap|].
  rewrite Hheap. apply store_all_pointees.
Qed.
End release.

(** ** Extraction *)

(** C2: when all elements of the array but one are well-formed, the vector
    the loop builds has one pointer less than the array has elements, and
    the records it points to are the copies of the well-formed elements in
    the order of the array.  For any array the vector is not longer than
    the array. *)
Theorem one_malformed_element_is_skipped
        (hiRectClass : jref jclass) (l1 l2 : jarray) (bad : option JTextInfo)
        (w : World) (any : jarray) (w0 : World) :
  w_pending w = false →
  Forall (λ e, well_formed e = true) l1 →
  well_formed bad = false →
  Forall (λ e, well_formed e = true) l2 →
  (∃ ps w',
      extract hiRectClass getText_id getBBox_id (l1 ++ bad :: l2) w
      = (Returned ps, w')
      ∧ length ps = (length (l1 ++ bad :: l2) - 1)%nat
      ∧ read_TextInfo (w_heap w') <$> ps = copy_of <$> (l1 ++ l2)
      ∧ Forall is_Some (copy_of <$> (l1 ++ l2)))
  ∧ (∃ ps w',
        extract hiRectClass getText_id getBBox_id any w0 = (Returned ps, w')
        ∧ (length ps ≤ length any)%nat).
Proof.
  intros Hpe H1 Hbad H2. split.
  - destruct (extract_run hiRectClass (l1 ++ bad :: l2) w Hpe)
      as (w' & Hrun & Hheap & _).
    assert (omap copy_of (l1 ++ bad :: l2) = omap copy_of (l1 ++ l2)) as Hom.
    { rewrite !omap_app. simpl. by rewrite (not_well_formed_copy bad Hbad). }
    rewrite Hom in Hrun, Hheap.
    assert (Forall (λ e, well_formed e = true) (l1 ++ l2)) as H12
      by (by apply Forall_app).
    pose proof (omap_copy_well_formed _ H12) as Hcopies.
    eexists _, w'. split; [exact Hrun|].
    rewrite Hheap, store_all_pointees, store_all_length.
    split; [|split; [exact Hcopies|by apply copies_are_there]].
    apply (f_equal length) in Hcopies.
    rewrite !length_fmap in Hcopies. rewrite Hcopies.
    rewrite !length_app. simpl. lia.
  - destruct (extract_bound hiRectClass any w0) as (ps & w' & Hrun & Hle & _).
    by exists ps, w'.
Qed.

Lemma one_malformed_element_is_skipped_witness :
  (∃ ps w',
      extract sample_class getText_id getBBox_id
              ([rec_of "a" 1 2 3 4] ++ throwing_record :: [rec_of "b" 5 6 7 8])
              (fresh_world full_classpath)
      = (Returned ps, w')
      ∧ length ps
        = (length ([rec_of "a" 1 2 3 4] ++ throwing_record
                     :: [rec_of "b" 5 6 7 8]) - 1)%nat
      ∧ read_TextInfo (w_heap w') <$> ps
        = copy_of <$> ([rec_of "a" 1 2 3 4] ++ [rec_of "b" 5 6 7 8])
      ∧ Forall is_Some
          (copy_of <$> ([rec_of "a" 1 2 3 4] ++ [rec_of "b" 5 6 7 8])))
  ∧ (∃ ps w',
        extract sample_class getText_id getBBox_id [None; throwing_record]
                (fresh_world full_classpath) = (Returned ps, w')
        ∧ (length ps ≤ length [None; throwing_record])%nat).
Proof.
  apply (one_malformed_element_is_skipped sample_class
           [rec_of "a" 1 2 3 4] [rec_of "b" 5 6 7 8] throwing_record
           (fresh_world full_classpath) [None; throwing_record]
           (fresh_world full_classpath)).
  - reflexivity.
  - repeat constructor.
  - reflexivity.
  - repeat constructor.
Defined.

(** C5: when every element of the array is well-formed (and the handle is
    not 0, the lookups succeed and nothing is pending on entry), the call
    makes one call of [analyzeTextData], on the handle, with as many
    pointers as the array has elements; they point to the copies of the
    elements, in order. *)
Theorem well_formed_batch_is_passed_whole
        (E : Engine) (handle : jlong) (arr : jarray) (w : World) :
  handle ≠ 0 →
  lookups_succeed (w_classes w) = true →
  w_pending w = false →
  Forall (λ e, well_formed e = true) arr →
  ∃ r w' ps,
    analyzeTextDataNative E handle (Some arr) w = (r, w')
    ∧ w_calls w' = w_calls w ++ [CallAnalyze handle ps (copy_of <$> arr)]
    ∧ length ps = length arr
    ∧ Forall is_Some (copy_of <$> arr).
Proof.
  intros Hh Hcp Hpe Hwf.
  destruct (analyze_run E handle arr w Hh (lookups_succeed_full _ Hcp) Hpe)
    as (r & w' & Hrun & Hcalls & _).
  pose proof (omap_copy_well_formed arr Hwf) as Hcopies.
  rewrite Hcopies in Hcalls.
  eexists r, w', _. split; [exact Hrun|]. split; [exact Hcalls|].
  split; [|by apply copies_are_there].
  rewrite store_all_length.
  apply (f_equal length) in Hcopies. by rewrite !length_fmap in Hcopies.
Qed.

Lemma well_formed_batch_is_passed_whole_witness :
  ∃ r w' ps,
    analyzeTextDataNative echo_engine 7
      (Some [rec_of "a" 1 2 3 4; rec_of "b" 5 6 7 8])
      (fresh_world full_classpath) = (r, w')
    ∧ w_calls w'
      = w_calls (fresh_world full_classpath)
        ++ [CallAnalyze 7 ps
              (copy_of <$> [rec_of "a" 1 2 3 4; rec_of "b" 5 6 7 8])]
    ∧ length ps = length [rec_of "a" 1 2 3 4; rec_of "b" 5 6 7 8]
    ∧ Forall is_Some (copy_of <$> [rec_of "a" 1 2 3 4; rec_of "b" 5 6 7 8]).
Proof.
  apply (well_formed_batch_is_passed_whole echo_engine 7
           [rec_of "a" 1 2 3 4; rec_of "b" 5 6 7 8]
           (fresh_world full_classpath)).
  - lia.
  - reflexivity.
  - reflexivity.
  - repeat constructor.
Defined.

(** C6: when an accessor of an element throws, the turn of the loop for
    that element ends normally with nothing pending: the exception was
    pending when [ExceptionDescribe] was called and is cleared; the vector,
    the free store and the local references are as before the turn.  The
    whole loop ends normally with nothing pending and without a call into
    the engine. *)
Theorem accessor_error_is_cleared_and_element_omitted
        (hiRectClass : jref jclass) (arr : jarray) (i : nat)
        (textPointers : list Z) (o : JTextInfo) (w : World) :
  w_pending w = false →
  arr !! i = Some (Some o) →
  accessor_throws o = true →
  (∃ w',
      extract_element hiRectClass getText_id getBBox_id arr i textPointers w
      = (Returned textPointers, w')
      ∧ w_pending w' = false
      ∧ w_cerr w' = w_cerr w ++ [ExceptionTrace]
      ∧ w_heap w' = w_heap w
      ∧ w_locals w' = w_locals w
      ∧ w_calls w' = w_calls w)
  ∧ (∃ ps w'',
        extract hiRectClass getText_id getBBox_id arr w = (Returned ps, w'')
        ∧ w_pending w'' = false
        ∧ w_calls w'' = w_calls w).
Proof.
  intros Hpe Hi Hthrow. split.
  - destruct w as [cp pe lo ut he ca jn ce]. simpl in Hpe. subst pe.
    destruct o as [bb tx]. run. rewrite Hi. run.
    destruct bb as [[r|]|]; try discriminate Hthrow; run.
    + destruct tx as [[s|]|]; try discriminate Hthrow; run.
      eexists. split; [reflexivity|]. simpl.
      repeat split. apply take2_delete2.
    + eexists. split; [reflexivity|]. simpl.
      repeat split. apply take_delete.
  - destruct (extract_run hiRectClass arr w Hpe)
      as (w'' & Hrun & _ & Hpe' & Hcalls & _).
    by eexists _, w''.
Qed.

Lemma accessor_error_is_cleared_and_element_omitted_witness :
  (∃ w',
      extract_element sample_class getText_id getBBox_id
        [rec_of "a" 1 2 3 4; throwing_record] 1 [1]
        (fresh_world full_classpath)
      = (Returned [1], w')
      ∧ w_pending w' = false
      ∧ w_cerr w' = w_cerr (fresh_world full_classpath) ++ [ExceptionTrace]
      ∧ w_heap w' = w_heap (fresh_world full_classpath)
      ∧ w_locals w' = w_locals (fresh_world full_classpath)
      ∧ w_calls w' = w_calls (fresh_world full_classpath))
  ∧ (∃ ps w'',
        extract sample_class getText_id getBBox_id
          [rec_of "a" 1 2 3 4; throwing_record]
          (fresh_world full_classpath) = (Returned ps, w'')
        ∧ w_pending w'' = false
        ∧ w_calls w'' = w_calls (fresh_world full_classpath)).
Proof.
  apply (accessor_error_is_cleared_and_element_omitted sample_class
           [rec_of "a" 1 2 3 4; throwing_record] 1 [1]
           (mkJTextInfo JThrow (JReturn (Some "c"%string)))
           (fresh_world full_classpath)); reflexivity.
Defined.

(** C7 fails on the code: after the turn of the loop for a well-formed
    element the references to the element and to its box have been
    deleted, but the reference to its text, taken at line 84, is still in
    the local reference table, which was empty before the turn. *)
Theorem text_reference_not_released_after_element :
  ∃ ps w',
    extract_element sample_class getText_id getBBox_id
                    [rec_of "a" 1 2 3 4] 0 [] (fresh_world full_classpath)
    = (Returned ps, w')
    ∧ w_locals (fresh_world full_classpath) = ∅
    ∧ map_to_list (w_locals w') = [(2%nat, RString "a")].
Proof.
  eexists _, _. split; [vm_compute; reflexivity|]. split; [done|].
  vm_compute. reflexivity.
Qed.

(** C1 fails on the code: [analyzeTextData] throws on a batch of one
    record.  The exception leaves [analyzeTextDataNative] at line 111, the
    loop of lines 114-116 is not run, and the record allocated at line 101
    is still in the free store, which was empty on entry. *)
Theorem record_not_released_when_analysis_throws :
  ∃ w',
    analyzeTextDataNative failing_engine 7 (Some [rec_of "a" 1 2 3 4])
                          (fresh_world full_classpath) = (Thrown, w')
    ∧ w_heap (fresh_world full_classpath) = ∅
    ∧ map_to_list (w_heap w')
      = [(1, OTextInfo (mkHiTextInfo "a" (mkHiRect 1 2 3 4)))].
Proof.
  eexists. split; [vm_compute; reflexivity|]. split; [done|].
  vm_compute. reflexivity.
Qed.

(** ** Preconditions of the entry points *)

(** C3: with handle 0, [analyzeTextDataNative] and [decryptionDataNative]
    return NULL, whatever the other argument is, and the list of calls made
    into the engine is the one the call started with: the only effect is
    the line on [std::cerr]. *)
Theorem null_handle_returns_null_without_engine_call
        (E : Engine) (textInfoArray : option jarray) (input : string)
        (w : World) :
  (∃ w', analyzeTextDataNative E 0 textInfoArray w = (Returned None, w')
         ∧ w' = add_cerr HandleIsNull w
         ∧ w_calls w' = w_calls w)
  ∧ (∃ w', decryptionDataNative E 0 input w = (Returned None, w')
           ∧ w' = add_cerr HandleIsNull w
           ∧ w_calls w' = w_calls w).
Proof.
  split; exists (add_cerr HandleIsNull w); by destruct w.
Qed.

(** C4: with a handle that is not 0 and a null array,
    [analyzeTextDataNative] returns NULL; no JNI function was called (so no
    element was retrieved), nothing was allocated and the engine was not
    called. *)
Theorem null_array_returns_null_without_extraction
        (E : Engine) (handle : jlong) (w : World) :
  handle ≠ 0 →
  ∃ w', analyzeTextDataNative E handle None w = (Returned None, w')
        ∧ w_jni w' = w_jni w
        ∧ w_locals w' = w_locals w
        ∧ w_heap w' = w_heap w
        ∧ w_calls w' = w_calls w
        ∧ w_cerr w' = w_cerr w ++ [ArrayIsNull].
Proof.
  intros Hh. unfold Java_com_mwkg_hiocr_HiOCR_analyzeTextDataNative.
  rewrite (proj2 (Z.eqb_neq handle 0) Hh).
  exists (add_cerr ArrayIsNull w). by destruct w.
Qed.

Lemma null_array_returns_null_without_extraction_witness :
  ∃ w', analyzeTextDataNative echo_engine 7 None (fresh_world full_classpath)
        = (Returned None, w')
        ∧ w_jni w' = w_jni (fresh_world full_classpath)
        ∧ w_locals w' = w_locals (fresh_world full_classpath)
        ∧ w_heap w' = w_heap (fresh_world full_classpath)
        ∧ w_calls w' = w_calls (fresh_world full_classpath)
        ∧ w_cerr w' = w_cerr (fresh_world full_classpath) ++ [ArrayIsNull].
Proof.
  apply (null_array_returns_null_without_extraction echo_engine 7). lia.
Defined.

(** C8: [destroyNativeAnalyzer] with handle 0 only writes "Handle is null"
    to [std::cerr] and returns: the free store and the calls into the
    engine are untouched.  With a handle that is not 0 the destructor of
    the engine at that address is called and its storage is released. *)
Theorem destroy_null_is_reported_and_nonnull_is_released
        (handle : jlong) (w : World) :
  handle ≠ 0 →
  (∃ w0, destroyNativeAnalyzer 0 w = (Returned tt, w0)
         ∧ w_cerr w0 = w_cerr w ++ [HandleIsNull]
         ∧ w_heap w0 = w_heap w
         ∧ w_calls w0 = w_calls w)
  ∧ (∃ w', destroyNativeAnalyzer handle w = (Returned tt, w')
           ∧ w_calls w' = w_calls w ++ [CallDestruct handle]
           ∧ w_heap w' = delete handle (w_heap w)
           ∧ w_heap w' !! handle = None
           ∧ w_cerr w' = w_cerr w).
Proof.
  intros Hh. split.
  - exists (add_cerr HandleIsNull w). by destruct w.
  - unfold Java_com_mwkg_hiocr_HiOCR_destroyNativeAnalyzer.
    rewrite (proj2 (Z.eqb_neq handle 0) Hh).
    destruct w as [cp pe lo ut he ca jn ce]. run_top.
    eexists. split; [reflexivity|]. simpl.
    repeat split. apply lookup_delete_eq.
Qed.

Lemma destroy_null_is_reported_and_nonnull_is_released_witness :
  (∃ w0, destroyNativeAnalyzer 0 world_with_engine = (Returned tt, w0)
         ∧ w_cerr w0 = w_cerr world_with_engine ++ [HandleIsNull]
         ∧ w_heap w0 = w_heap world_with_engine
         ∧ w_calls w0 = w_calls world_with_engine)
  ∧ (∃ w', destroyNativeAnalyzer 1 world_with_engine = (Returned tt, w')
           ∧ w_calls w' = w_calls world_with_engine ++ [CallDestruct 1]
           ∧ w_heap w' = delete 1 (w_heap world_with_engine)
           ∧ w_heap w' !! 1 = None
           ∧ w_cerr w' = w_cerr world_with_engine).
Proof.
  apply (destroy_null_is_reported_and_nonnull_is_released 1). lia.
Defined.

(** ** Creating an engine *)

(** C9, as amended: [createNativeAnalyzer] calls the constructor once with
    the scan type and the license key.  When the constructor returns, one
    engine configured with them is allocated at an address that was free,
    and that address, which is not 0, is the handle returned.  When the
    constructor throws, the exception leaves the call and the free store is
    as before.  In neither case is 0 returned. *)
Theorem create_returns_nonzero_handle_or_throws
        (E : Engine) (scanType : jlong) (licenseKey : string) (w : World) :
  let key := c_str licenseKey in
  ∃ r w',
    createNativeAnalyzer E scanType licenseKey w = (r, w')
    ∧ w_calls w' = w_calls w ++ [CallConstruct scanType key]
    ∧ r ≠ Returned 0
    ∧ match construct E (w_calls w) scanType key with
      | Returned _ =>
          ∃ handle, r = Returned handle
                    ∧ handle ≠ 0
                    ∧ w_heap w !! handle = None
                    ∧ w_heap w' = <[handle := OAnalyzer scanType key]> (w_heap w)
      | Thrown => r = Thrown ∧ w_heap w' = w_heap w
      end.
Proof.
  intros key. subst key. destruct w as [cp pe lo ut he ca jn ce].
  unfold Java_com_mwkg_hiocr_HiOCR_createNativeAnalyzer. run_top.
  destruct (construct E ca scanType (c_str licenseKey)) as [[]|]; run_top.
  - eexists _, _. split; [reflexivity|]. simpl. split; [done|].
    pose proof (new_addr_not_null he) as Hnn.
    split; [congruence|].
    exists (new_addr he). auto using new_addr_fresh.
  - eexists _, _. split; [reflexivity|]. by simpl.
Qed.

(** C9, as stated, fails: the constructor of [failing_engine] throws, and
    [createNativeAnalyzer] does not return 0 then; the exception leaves
    it. *)
Lemma create_does_not_return_zero_on_failure :
  construct failing_engine (w_calls (fresh_world full_classpath)) 2
            (c_str "key") = Thrown
  ∧ (createNativeAnalyzer failing_engine 2 "key"
                          (fresh_world full_classpath)).1 = Thrown
  ∧ ¬ (∃ w', createNativeAnalyzer failing_engine 2 "key"
                                  (fresh_world full_classpath)
             = (Returned 0, w')).
Proof.
  split; [reflexivity|]. split; [reflexivity|].
  intros [w' Hw']. vm_compute in Hw'. discriminate Hw'.
Qed.

(** ** The lookups at the start of an analysis *)

(** C10: when the class [HiTextInfo], the class [HiRect], [getText] or
    [getBBox] is not found, [analyzeTextDataNative] returns NULL; among the
    JNI calls it made there is no [GetObjectArrayElement], the free store
    is as before and the engine was not called. *)
Theorem failed_lookup_returns_null_before_extraction
        (E : Engine) (handle : jlong) (textInfoArray : option jarray)
        (w : World) :
  lookups_succeed (w_classes w) = false →
  ∃ w' js,
    analyzeTextDataNative E handle textInfoArray w = (Returned None, w')
    ∧ w_jni w' = w_jni w ++ js
    ∧ (∀ i, J_GetObjectArrayElement i ∉ js)
    ∧ w_heap w' = w_heap w
    ∧ w_calls w' = w_calls w.
Proof.
  intros Hcp. apply analyze_early_exit. by rewrite Hcp.
Qed.

Lemma failed_lookup_returns_null_before_extraction_witness :
  ∃ w' js,
    analyzeTextDataNative echo_engine 7 (Some [rec_of "a" 1 2 3 4])
      (fresh_world (mkClassPath true true false true)) = (Returned None, w')
    ∧ w_jni w' = w_jni (fresh_world (mkClassPath true true false true)) ++ js
    ∧ (∀ i, J_GetObjectArrayElement i ∉ js)
    ∧ w_heap w' = w_heap (fresh_world (mkClassPath true true false true))
    ∧ w_calls w' = w_calls (fresh_world (mkClassPath true true false true)).
Proof.
  apply (failed_lookup_returns_null_before_extraction echo_engine 7).
  reflexivity.
Defined.

(** X10: when both classes are found and [getText] or [getBBox] is not,
    NULL is returned after "Method ID is null" is written, with the
    NoSuchMethodError still pending: lines 61-64 do not clear it, unlike
    lines 53-57. *)
Lemma failed_method_lookup_leaves_exception_pending
      (E : Engine) (handle : jlong) (arr : jarray) (w : World) :
  handle ≠ 0 →
  w_pending w = false →
  has_HiTextInfo (w_classes w) = true →
  has_HiRect (w_classes w) = true →
  has_getText (w_classes w) && has_getBBox (w_classes w) = false →
  ∃ w', analyzeTextDataNative E handle (Some arr) w = (Returned None, w')
        ∧ w_pending w' = true
        ∧ w_cerr w' = w_cerr w ++ [MethodIdIsNull].
Proof.
  intros Hh Hpe H1 H2 Hm. destruct w as [[c1 c2 m1 m2] pe lo ut he ca jn ce].
  simpl in Hpe, H1, H2, Hm. subst pe c1 c2.
  unfold Java_com_mwkg_hiocr_HiOCR_analyzeTextDataNative.
  rewrite (proj2 (Z.eqb_neq handle 0) Hh).
  destruct m1, m2; try discriminate Hm; run_top; by eexists.
Qed.

(** ** More on the free store *)

Section fresh_addresses.
Implicit Types (h : gmap Z obj) (ps : list Z) (ts : list HiTextInfo).

Lemma store_all_fresh ts h :
NoDup (store_all ts h).1
∧ Forall (λ p, p ≠ 0 ∧ h !! p = None) (store_all ts h).1.
Proof.
revert h. induction ts as [|t ts IH]; intros h; simpl.
- split; constructor.
- destruct (IH (<[new_addr h := OTextInfo t]> h)) as [Hnd Hall].
  destruct (store_all ts _) as [ps h']. simpl in *.
  assert (Forall (λ p, p ≠ new_addr h ∧ p ≠ 0 ∧ h !! p = None) ps) as Hps.
  { eapply Forall_impl; [exact Hall|]. intros p [Hp0 Hp].
    apply lookup_insert_None in Hp as [Hp Hne]. done. }
  split.
  + constructor; [|done]. intros Hin.
    rewrite Forall_forall in Hps. by destruct (Hps _ Hin).
  + constructor; [auto using new_addr_not_null, new_addr_fresh|].
    eapply Forall_impl; [exact Hps|]. by intros p (_ & ? & ?).
Qed.

Lemma store_all_elsewhere ts h k :
k ∉ (store_all ts h).1 → (store_all ts h).2 !! k = h !! k.
Proof.
revert h. induction ts as [|t ts IH]; intros h; simpl; [done|].
specialize (IH (<[new_addr h := OTextInfo t]> h)).
destruct (store_all ts _) as [ps h']. simpl in *.
intros Hk. apply not_elem_of_cons in Hk as [Hne Hk].
rewrite IH by done. by apply lookup_insert_ne.
Qed.
End fresh_addresses.

Lemma omap_copy_length (arr : jarray) :
  length (omap copy_of arr) = length (filter (λ e, well_formed e = true) arr).
Proof.
  induction arr as [|e arr IH]; [done|].
  rewrite (filter_cons (λ e, well_formed e = true)). simpl.
  destruct (well_formed e) eqn:He.
  - destruct (well_formed_copy e He) as [t Ht]. rewrite Ht.
    rewrite decide_True by done. simpl. f_equal. exact IH.
  - rewrite (not_well_formed_copy e He). rewrite decide_False by done.
    exact IH.
Qed.

(** ** The loop, by invariant *)

Section loop_invariant.
Variable hiRectClass : jref jclass.
Variable arr : jarray.
Variable P : nat → World → Prop.

Hypothesis turn_keeps : ∀ i tp w e,
arr !! i = Some e → P i w →
∃ tp' w',
  extract_element hiRectClass getText_id getBBox_id arr i tp w
  = (Returned tp', w')
  ∧ P (S i) w'.

Lemma for_loop_invariant n : ∀ i tp w,
(i + n)%nat = length arr →
P i w →
∃ tp' w',
  for_loop n i (extract_element hiRectClass getText_id getBBox_id arr) tp w
  = (Returned tp', w')
  ∧ P (length arr) w'.
Proof.
induction n as [|n IH]; intros i tp w Hlen HP; simpl.
- exists tp, w. split; [done|]. by replace (length arr) with i by lia.
- destruct (lookup_lt_is_Some_2 arr i) as [e He]; [lia|].
  destruct (turn_keeps i tp w e He HP) as (tp1 & w1 & Hrun & HP1).
  unfold bind at 1. rewrite Hrun.
  replace (i + 1)%nat with (S i) by lia.
  apply IH; [lia|done].
Qed.

Lemma extract_invariant w :
P 0 (add_jni J_GetArrayLength w) →
∃ ps w',
  extract hiRectClass getText_id getBBox_id arr w = (Returned ps, w')
  ∧ P (length arr) w'.
Proof.
intros HP. unfold extract, JNI.GetArrayLength, JNI.called, modify.
unfold bind at 1 2. unfold ret at 1.
by apply for_loop_invariant.
Qed.
End loop_invariant.

(** ** What the loop retrieves and reports *)

Lemma null_indices_from_app (l1 l2 : jarray) k :
  null_indices_from k (l1 ++ l2)
  = null_indices_from k l1 ++ null_indices_from (k + length l1) l2.
Proof.
  revert k. induction l1 as [|[o|] l1 IH]; intros k; simpl.
  - by rewrite Nat.add_0_r.
  - rewrite IH. by replace (S k + length l1)%nat with (k + S (length l1))%nat by lia.
  - rewrite IH. by replace (S k + length l1)%nat with (k + S (length l1))%nat by lia.
Qed.

Lemma elem_of_null_indices_from (arr : jarray) k j :
  j ∈ null_indices_from k arr ↔ ∃ i, j = (k + i)%nat ∧ arr !! i = Some None.
Proof.
  revert k. induction arr as [|[o|] arr IH]; intros k; simpl.
  - split; [by intros ?%elem_of_nil|by intros (i & _ & ?)].
  - rewrite IH. split.
    + intros (i & -> & Hi). exists (S i). split; [lia|done].
    + intros ([|i] & -> & Hi); [done|]. exists i. split; [lia|done].
  - rewrite elem_of_cons, IH. split.
    + intros [->|(i & -> & Hi)].
      * exists 0%nat. split; [lia|done].
      * exists (S i). split; [lia|done].
    + intros ([|i] & -> & Hi); [left; lia|].
      right. exists i. split; [lia|done].
Qed.

Section traces.
Variable hiRectClass : jref jclass.
Variable arr : jarray.

Lemma extract_element_trace i tp w e :
arr !! i = Some e →
∃ tp' w',
  extract_element hiRectClass getText_id getBBox_id arr i tp w
  = (Returned tp', w')
  ∧ retrieved_indices (w_jni w') = retrieved_indices (w_jni w) ++ [i]
  ∧ reported_indices (w_cerr w')
    = reported_indices (w_cerr w) ++ (if e is None then [i] else []).
Proof.
intros Hi. destruct w as [cp pe lo ut he ca jn ce].
assert (∀ (tp' : list Z) (w' : World),
  retrieved_indices (w_jni w') = retrieved_indices jn ++ [i] →
  reported_indices (w_cerr w')
    = reported_indices ce ++ (if e is None then [i] else []) →
  ∃ (tp'' : list Z) (w'' : World), (Returned tp', w') = (Returned tp'', w'')
    ∧ retrieved_indices (w_jni w'') = retrieved_indices jn ++ [i]
    ∧ reported_indices (w_cerr w'')
      = reported_indices ce ++ (if e is None then [i] else [])) as Hfin
  by (intros tp' w' ? ?; by exists tp', w').
destruct e as [[bb tx]|]; run; rewrite Hi; run.
- destruct bb as [[r|]|], pe; run.
  all: try destruct tx as [[s|]|]; run.
  all: apply Hfin; cbn [w_jni w_cerr];
       unfold retrieved_indices, reported_indices;
       rewrite ?omap_app; simpl; by rewrite ?app_nil_r.
- apply Hfin; cbn [w_jni w_cerr];
    unfold retrieved_indices, reported_indices;
    rewrite ?omap_app; simpl; by rewrite ?app_nil_r.
Qed.

Lemma extract_trace w :
∃ ps w',
  extract hiRectClass getText_id getBBox_id arr w = (Returned ps, w')
  ∧ retrieved_indices (w_jni w')
    = retrieved_indices (w_jni w) ++ seq 0 (length arr)
  ∧ reported_indices (w_cerr w')
    = reported_indices (w_cerr w) ++ null_indices_from 0 arr.
Proof.
destruct (extract_invariant hiRectClass arr
  (λ i w', retrieved_indices (w_jni w')
           = retrieved_indices (w_jni w) ++ seq 0 i
         ∧ reported_indices (w_cerr w')
           = reported_indices (w_cerr w)
             ++ null_indices_from 0 (take i arr)) ) with w
  as (ps & w' & Hrun & Hjni & Hcerr).
- intros i tp w1 e Hi [Hj Hc].
  destruct (extract_element_trace i tp w1 e Hi)
    as (tp' & w' & Hrun & Hj' & Hc').
  exists tp', w'. split; [done|]. split.
  + by rewrite Hj', Hj, seq_S, app_assoc.
  + rewrite Hc', Hc, (take_S_r _ _ _ Hi), null_indices_from_app.
    rewrite length_take_le by (apply lookup_lt_Some in Hi; lia).
    rewrite <- app_assoc. by destruct e.
- destruct w. simpl. unfold retrieved_indices.
  rewrite omap_app. simpl. by rewrite !app_nil_r.
- exists ps, w'. rewrite firstn_all in Hcerr. done.
Qed.
End traces.

(** ** The local references after the loop *)



Section loop_references.
Variable hiRectClass : jref jclass.
Variable arr : jarray.



End loop_references.

(** ** What the entry points leave behind *)

Section frames.
Variable E : Engine.

(** The UTF buffers on the exits before the loop. *)
Lemma analyze_early_exit_utf handle textInfoArray w :
lookups_succeed (w_classes w) && negb (w_pending w) = false →
∃ w', analyzeTextDataNative E handle textInfoArray w = (Returned None, w')
      ∧ w_utf w' = w_utf w.
Proof.
intros Hcp. destruct w as [[c1 c2 m1 m2] pe lo ut he ca jn ce].
unfold Java_com_mwkg_hiocr_HiOCR_analyzeTextDataNative.
destruct (handle =? 0); [|destruct textInfoArray as [arr|]].
1, 3: run_top; by eexists.
destruct c1, c2, m1, m2, pe; try discriminate Hcp; run_top; by eexists.
Qed.

(** The call past the lookups: the engine is called once; the buffers are
  all released; when the engine returns, its answer is returned and
  nothing is pending. *)
Lemma analyze_run_frame handle arr w :
handle ≠ 0 →
w_classes w = full_classpath →
w_pending w = false →
∃ r w',
  analyzeTextDataNative E handle (Some arr) w = (r, w')
  ∧ w_utf w' = w_utf w
  ∧ w_pending w' = false
  ∧ match analyzeTextData E (w_calls w) handle (Some <$> omap copy_of arr)
    with
    | Returned s => ∃ ref, r = Returned (Some ref) ∧ ref_obj ref = c_str s
    | Thrown => r = Thrown
    end.
Proof.
intros Hh Hcp Hpe.
destruct w as [cp pe lo ut he ca jn ce]. simpl in Hcp, Hpe. subst cp pe.
simpl w_utf. simpl w_calls.
unfold Java_com_mwkg_hiocr_HiOCR_analyzeTextDataNative.
rewrite (proj2 (Z.eqb_neq handle 0) Hh). run_top.
match goal with
| |- context [extract ?c _ _ _ ?W] =>
    destruct (extract_run c arr W)
      as (w1 & Hrun & Hheap & Hpe1 & Hca & _ & Hutf);
    [reflexivity|]
end.
simpl in Hrun, Hheap, Hca, Hutf. rewrite Hrun.
destruct w1 as [cp1 pe1 lo1 ut1 he1 ca1 jn1 ce1].
simpl in Hheap, Hpe1, Hca, Hutf. subst he1 pe1 ca1 ut1. run_top.
rewrite (store_all_pointees (omap copy_of arr) he).
destruct (analyzeTextData E ca handle _) as [s|]; run_top.
- rewrite delete_each_run. run_top.
  eexists _, _. split; [reflexivity|]. simpl. by eauto.
- eexists _, _. split; [reflexivity|]. by simpl.
Qed.

Lemma analyze_utf handle textInfoArray w :
w_utf (analyzeTextDataNative E handle textInfoArray w).2 = w_utf w.
Proof.
destruct (lookups_succeed (w_classes w) && negb (w_pending w)) eqn:Hok.
- apply andb_true_iff in Hok as [Hcp Hpe].
  apply negb_true_iff in Hpe.
  unfold Java_com_mwkg_hiocr_HiOCR_analyzeTextDataNative.
  destruct (handle =? 0) eqn:Hh; [by destruct w|].
  destruct textInfoArray as [arr|]; [|by destruct w].
  apply Z.eqb_neq in Hh.
  destruct (analyze_run_frame handle arr w Hh (lookups_succeed_full _ Hcp) Hpe)
    as (r & w' & Hrun & Hutf & _).
  unfold Java_com_mwkg_hiocr_HiOCR_analyzeTextDataNative in Hrun.
  rewrite (proj2 (Z.eqb_neq handle 0) Hh) in Hrun.
  by rewrite Hrun.
- destruct (analyze_early_exit_utf handle textInfoArray w Hok)
    as (w' & Hrun & Hutf).
  by rewrite Hrun.
Qed.

Lemma create_run scanType licenseKey w :
∃ r w',
  createNativeAnalyzer E scanType licenseKey w = (r, w')
  ∧ w_utf w' = w_utf w
  ∧ w_locals w' = w_locals w
  ∧ w_pending w' = w_pending w
  ∧ w_calls w' = w_calls w ++ [CallConstruct scanType (c_str licenseKey)]
  ∧ match r with
    | Returned handle =>
        handle = new_addr (w_heap w)
        ∧ w_heap w'
          = <[handle := OAnalyzer scanType (c_str licenseKey)]> (w_heap w)
    | Thrown => w_heap w' = w_heap w
    end.
Proof.
destruct w as [cp pe lo ut he ca jn ce].
unfold Java_com_mwkg_hiocr_HiOCR_createNativeAnalyzer. run_top.
destruct (construct E ca scanType (c_str licenseKey)) as [[]|]; run_top.
all: eexists _, _; split; [reflexivity|]; by simpl.
Qed.

Lemma destroy_run handle w :
handle ≠ 0 →
destroyNativeAnalyzer handle w
= (Returned tt,
   set_heap (delete handle (w_heap w)) (add_call (CallDestruct handle) w)).
Proof.
intros Hh. unfold Java_com_mwkg_hiocr_HiOCR_destroyNativeAnalyzer.
rewrite (proj2 (Z.eqb_neq handle 0) Hh). by destruct w.
Qed.
End frames.

(** ** Further properties of the bridge *)

(** X1: entered with nothing pending, the loop of lines 67-107 copies
    exactly the well-formed elements: the records the vector points to are
    their copies in the order of the array, as many as there are
    well-formed elements.  The pointers are distinct, not null, were free
    before the loop, and the rest of the free store is untouched. *)
Theorem extraction_copies_exactly_the_well_formed
        (hiRectClass : jref jclass) (arr : jarray) (w : World) :
  w_pending w = false →
  ∃ ps w',
    extract hiRectClass getText_id getBBox_id arr w = (Returned ps, w')
    ∧ read_TextInfo (w_heap w') <$> ps = Some <$> omap copy_of arr
    ∧ length ps = length (filter (λ e, well_formed e = true) arr)
    ∧ NoDup ps
    ∧ Forall (λ p, p ≠ 0 ∧ w_heap w !! p = None) ps
    ∧ ∀ k, k ∉ ps → w_heap w' !! k = w_heap w !! k.
Proof.
  intros Hpe.
  destruct (extract_run hiRectClass arr w Hpe) as (w' & Hrun & Hheap & _).
  eexists _, w'. split; [exact Hrun|]. rewrite Hheap.
  destruct (store_all_fresh (omap copy_of arr) (w_heap w)) as [Hnd Hfresh].
  split; [apply store_all_pointees|].
  split; [by rewrite store_all_length, omap_copy_length|].
  split; [done|]. split; [done|].
  intros k. apply store_all_elsewhere.
Qed.

Lemma extraction_copies_exactly_the_well_formed_witness :
  ∃ ps w',
    extract sample_class getText_id getBBox_id
            [rec_of "a" 1 2 3 4; None; throwing_record; rec_of "b" 5 6 7 8]
            (fresh_world full_classpath) = (Returned ps, w')
    ∧ read_TextInfo (w_heap w') <$> ps
      = Some <$> omap copy_of
          [rec_of "a" 1 2 3 4; None; throwing_record; rec_of "b" 5 6 7 8]
    ∧ length ps
      = length (filter (λ e, well_formed e = true)
          [rec_of "a" 1 2 3 4; None; throwing_record; rec_of "b" 5 6 7 8])
    ∧ NoDup ps
    ∧ Forall (λ p, p ≠ 0 ∧ w_heap (fresh_world full_classpath) !! p = None) ps
    ∧ ∀ k, k ∉ ps →
           w_heap w' !! k = w_heap (fresh_world full_classpath) !! k.
Proof.
  apply (extraction_copies_exactly_the_well_formed sample_class
           [rec_of "a" 1 2 3 4; None; throwing_record; rec_of "b" 5 6 7 8]
           (fresh_world full_classpath)).
  reflexivity.
Defined.

(** X2: with a handle that is not 0, the lookups succeeding and nothing
    pending on entry, [analyzeTextDataNative] calls [analyzeTextData] once,
    on the handle, with pointers to the copies of the well-formed elements
    of the array in order, whatever the other elements are.  When the
    engine returns, its answer up to the first NUL is returned as a new
    string and nothing is pending; when it throws, the exception leaves
    the call. *)
Theorem analysis_passes_the_copies_and_returns_the_answer
        (E : Engine) (handle : jlong) (arr : jarray) (w : World) :
  handle ≠ 0 →
  lookups_succeed (w_classes w) = true →
  w_pending w = false →
  ∃ r w' ps,
    analyzeTextDataNative E handle (Some arr) w = (r, w')
    ∧ w_calls w'
      = w_calls w ++ [CallAnalyze handle ps (Some <$> omap copy_of arr)]
    ∧ length ps = length (omap copy_of arr)
    ∧ w_pending w' = false
    ∧ match analyzeTextData E (w_calls w) handle (Some <$> omap copy_of arr)
      with
      | Returned s => ∃ ref, r = Returned (Some ref) ∧ ref_obj ref = c_str s
      | Thrown => r = Thrown
      end.
Proof.
  intros Hh Hcp Hpe. apply lookups_succeed_full in Hcp.
  destruct (analyze_run E handle arr w Hh Hcp Hpe)
    as (r & w' & Hrun & Hcalls & _).
  destruct (analyze_run_frame E handle arr w Hh Hcp Hpe)
    as (r' & w'' & Hrun' & _ & Hpe' & Hres).
  pose proof (eq_trans (eq_sym Hrun) Hrun') as Heq.
  injection Heq as <- <-.
  eexists r, w', _. split; [exact Hrun|]. split; [exact Hcalls|].
  split; [apply store_all_length|]. by split.
Qed.

Lemma analysis_passes_the_copies_and_returns_the_answer_witness :
  ∃ r w' ps,
    analyzeTextDataNative echo_engine 7
      (Some [rec_of "a" 1 2 3 4; None; throwing_record])
      (fresh_world full_classpath) = (r, w')
    ∧ w_calls w'
      = w_calls (fresh_world full_classpath)
        ++ [CallAnalyze 7 ps
              (Some <$> omap copy_of
                 [rec_of "a" 1 2 3 4; None; throwing_record])]
    ∧ length ps
      = length (omap copy_of [rec_of "a" 1 2 3 4; None; throwing_record])
    ∧ w_pending w' = false
    ∧ match analyzeTextData echo_engine
              (w_calls (fresh_world full_classpath)) 7
              (Some <$> omap copy_of
                 [rec_of "a" 1 2 3 4; None; throwing_record])
      with
      | Returned s => ∃ ref, r = Returned (Some ref) ∧ ref_obj ref = c_str s
      | Thrown => r = Thrown
      end.
Proof.
  apply (analysis_passes_the_copies_and_returns_the_answer echo_engine 7
           [rec_of "a" 1 2 3 4; None; throwing_record]
           (fresh_world full_classpath)).
  - lia.
  - reflexivity.
  - reflexivity.
Defined.

(** X3: for every handle, array and world, [analyzeTextDataNative] leaves
    as many UTF buffers outstanding as on entry, however it ends; and when
    it returns (NULL or a string), the free store is as on entry. *)
Theorem analysis_returns_with_free_store_and_buffers_as_on_entry
        (E : Engine) (handle : jlong) (textInfoArray : option jarray)
        (w : World) :
  w_utf (analyzeTextDataNative E handle textInfoArray w).2 = w_utf w
  ∧ match (analyzeTextDataNative E handle textInfoArray w).1 with
    | Returned _ =>
        w_heap (analyzeTextDataNative E handle textInfoArray w).2 = w_heap w
    | Thrown => True
    end.
Proof.
  split; [apply analyze_utf|].
  destruct (analyzeTextDataNative E handle textInfoArray w) as [[r|] w']
    eqn:Hrun; [|done].
  simpl. by eapply analyze_releases_on_return.
Qed.

(** X4: with a handle that is not 0, [decryptionDataNative] calls
    [decryptionData] once, on the handle, with the input up to its first
    NUL.  When the engine returns, its answer up to the first NUL is
    returned as a new string, whose reference is the only change to the
    local references; when it throws, the exception leaves the call.
    Either way the UTF buffer has been released before the engine is
    called, and the free store and the pending flag are untouched. *)
Theorem decryption_calls_the_engine_once_and_returns_its_answer
        (E : Engine) (handle : jlong) (input : string) (w : World) :
  handle ≠ 0 →
  ∃ r w',
    decryptionDataNative E handle input w = (r, w')
    ∧ w_calls w' = w_calls w ++ [CallDecrypt handle (c_str input)]
    ∧ w_utf w' = w_utf w
    ∧ w_heap w' = w_heap w
    ∧ w_pending w' = w_pending w
    ∧ match decryptionData E (w_calls w) handle (c_str input) with
      | Returned d =>
          ∃ ref, r = Returned (Some ref)
                 ∧ ref_obj ref = c_str d
                 ∧ w_locals w !! ref_id ref = None
                 ∧ w_locals w' = <[ref_id ref := RString (c_str d)]> (w_locals w)
      | Thrown => r = Thrown ∧ w_locals w' = w_locals w
      end.
Proof.
  intros Hh. destruct w as [cp pe lo ut he ca jn ce].
  unfold Java_com_mwkg_hiocr_HiOCR_decryptionDataNative.
  rewrite (proj2 (Z.eqb_neq handle 0) Hh). run_top.
  destruct (decryptionData E ca handle (c_str input)) as [d|]; run_top.
  - eexists _, _. split; [reflexivity|]. simpl. repeat split.
    eexists. split; [reflexivity|]. simpl. repeat split.
    apply fresh_local.
  - eexists _, _. split; [reflexivity|]. by simpl.
Qed.

Lemma decryption_calls_the_engine_once_and_returns_its_answer_witness :
  ∃ r w',
    decryptionDataNative echo_engine 1 "secret" world_with_engine = (r, w')
    ∧ w_calls w' = w_calls world_with_engine ++ [CallDecrypt 1 (c_str "secret")]
    ∧ w_utf w' = w_utf world_with_engine
    ∧ w_heap w' = w_heap world_with_engine
    ∧ w_pending w' = w_pending world_with_engine
    ∧ match decryptionData echo_engine (w_calls world_with_engine) 1
              (c_str "secret") with
      | Returned d =>
          ∃ ref, r = Returned (Some ref)
                 ∧ ref_obj ref = c_str d
                 ∧ w_locals world_with_engine !! ref_id ref = None
                 ∧ w_locals w'
                   = <[ref_id ref := RString (c_str d)]>
                       (w_locals world_with_engine)
      | Thrown => r = Thrown ∧ w_locals w' = w_locals world_with_engine
      end.
Proof.
  apply (decryption_calls_the_engine_once_and_returns_its_answer
           echo_engine 1 "secret" world_with_engine).
  lia.
Defined.

(** X5: when [createNativeAnalyzer] returns a handle, giving that handle to
    [destroyNativeAnalyzer] puts the free store back as it was before the
    engine was created; the engine saw its constructor and then its
    destructor on that handle, and no UTF buffer is outstanding. *)
Theorem create_then_destroy_restores_the_free_store
        (E : Engine) (scanType : jlong) (licenseKey : string)
        (w : World) (handle : jlong) (w1 : World) :
  createNativeAnalyzer E scanType licenseKey w = (Returned handle, w1) →
  ∃ w2,
    destroyNativeAnalyzer handle w1 = (Returned tt, w2)
    ∧ w_heap w2 = w_heap w
    ∧ w_calls w2
      = w_calls w ++ [CallConstruct scanType (c_str licenseKey);
                      CallDestruct handle]
    ∧ w_utf w2 = w_utf w
    ∧ w_cerr w2 = w_cerr w.
Proof.
  intros Hcreate.
  destruct (create_run E scanType licenseKey w)
    as (r & w1' & Hrun & Hutf & _ & _ & Hcalls & Hres).
  pose proof (eq_trans (eq_sym Hcreate) Hrun) as Heq.
  injection Heq as <- <-. destruct Hres as [-> Hheap].
  rewrite destroy_run by apply new_addr_not_null.
  eexists. split; [reflexivity|].
  assert (w_cerr w1 = w_cerr w) as Hcerr.
  { revert Hcreate. destruct w as [cp pe lo ut he ca jn ce].
    unfold Java_com_mwkg_hiocr_HiOCR_createNativeAnalyzer. run_top.
    destruct (construct E ca scanType (c_str licenseKey)) as [[]|]; run_top;
      by intros [= <-]. }
  destruct w1 as [cp1 pe1 lo1 ut1 he1 ca1 jn1 ce1].
  simpl in *. subst. rewrite <- app_assoc. repeat split.
  apply delete_insert_id, new_addr_fresh.
Qed.

Lemma create_then_destroy_restores_the_free_store_witness :
  ∃ w2,
    destroyNativeAnalyzer 1 world_with_engine = (Returned tt, w2)
    ∧ w_heap w2 = w_heap (fresh_world full_classpath)
    ∧ w_calls w2
      = w_calls (fresh_world full_classpath)
        ++ [CallConstruct 2 (c_str "key"); CallDestruct 1]
    ∧ w_utf w2 = w_utf (fresh_world full_classpath)
    ∧ w_cerr w2 = w_cerr (fresh_world full_classpath).
Proof.
  apply (create_then_destroy_restores_the_free_store echo_engine 2 "key"
           (fresh_world full_classpath) 1 world_with_engine).
  vm_compute. reflexivity.
Defined.

(** X6: a cycle of [createNativeAnalyzer], [analyzeTextDataNative] on the
    handle it returned and [destroyNativeAnalyzer] on that handle, in which
    the first two return, leaves the free store and the number of
    outstanding UTF buffers as they were before the cycle, whatever the
    array holds. *)
Theorem create_analyze_destroy_leaves_no_allocation
        (E : Engine) (scanType : jlong) (licenseKey : string)
        (textInfoArray : option jarray) (w : World)
        (handle : jlong) (w1 : World)
        (r : option (jref string)) (w2 : World) :
  createNativeAnalyzer E scanType licenseKey w = (Returned handle, w1) →
  analyzeTextDataNative E handle textInfoArray w1 = (Returned r, w2) →
  ∃ w3,
    destroyNativeAnalyzer handle w2 = (Returned tt, w3)
    ∧ w_heap w3 = w_heap w
    ∧ w_utf w3 = w_utf w.
Proof.
  intros Hcreate Hanalyze.
  destruct (create_run E scanType licenseKey w)
    as (r0 & w1' & Hrun & Hutf & _ & _ & _ & Hres).
  pose proof (eq_trans (eq_sym Hcreate) Hrun) as Heq.
  injection Heq as <- <-. destruct Hres as [-> Hheap].
  pose proof (analyze_releases_on_return E _ _ _ _ _ Hanalyze) as Hheap2.
  pose proof (analyze_utf E (new_addr (w_heap w)) textInfoArray w1) as Hutf2.
  rewrite Hanalyze in Hutf2. simpl in Hutf2.
  rewrite destroy_run by apply new_addr_not_null.
  eexists. split; [reflexivity|].
  destruct w2 as [cp2 pe2 lo2 ut2 he2 ca2 jn2 ce2].
  simpl in *. subst. rewrite Hheap. split; [|congruence].
  apply delete_insert_id, new_addr_fresh.
Qed.

Lemma create_analyze_destroy_leaves_no_allocation_witness :
  ∃ w3,
    destroyNativeAnalyzer 1
      (analyzeTextDataNative echo_engine 1
         (Some [rec_of "a" 1 2 3 4; throwing_record]) world_with_engine).2
    = (Returned tt, w3)
    ∧ w_heap w3 = w_heap (fresh_world full_classpath)
    ∧ w_utf w3 = w_utf (fresh_world full_classpath).
Proof.
  eapply (create_analyze_destroy_leaves_no_allocation echo_engine 2 "key"
            (Some [rec_of "a" 1 2 3 4; throwing_record])
            (fresh_world full_classpath) 1 world_with_engine).
  - vm_compute. reflexivity.
  - vm_compute. reflexivity.
Defined.

(** X7: whatever the array and the world, the loop of lines 67-107 ends
    normally and has called [GetObjectArrayElement] once for each index
    0, 1, ..., length - 1, in this order, and for no other index. *)
Theorem extraction_retrieves_each_index_once_in_order
        (hiRectClass : jref jclass) (arr : jarray) (w : World) :
  ∃ ps w',
    extract hiRectClass getText_id getBBox_id arr w = (Returned ps, w')
    ∧ retrieved_indices (w_jni w')
      = retrieved_indices (w_jni w) ++ seq 0 (length arr).
Proof.
  destruct (extract_trace hiRectClass arr w) as (ps & w' & Hrun & Hjni & _).
  by exists ps, w'.
Qed.

(** X8: the loop writes "Failed to retrieve HiTextInfo object at index i"
    for the indices of the null elements of the array, in increasing
    order, and for no other index. *)
Theorem null_elements_are_reported_by_index
        (hiRectClass : jref jclass) (arr : jarray) (w : World) :
  ∃ ps w',
    extract hiRectClass getText_id getBBox_id arr w = (Returned ps, w')
    ∧ reported_indices (w_cerr w')
      = reported_indices (w_cerr w) ++ null_indices_from 0 arr
    ∧ ∀ i, i ∈ null_indices_from 0 arr ↔ arr !! i = Some None.
Proof.
  destruct (extract_trace hiRectClass arr w) as (ps & w' & Hrun & _ & Hcerr).
  exists ps, w'. split; [done|]. split; [done|].
  intros i. rewrite elem_of_null_indices_from. split.
  - by intros (j & -> & Hj).
  - intros Hi. by exists i.
Qed.

(** X9: when the class [HiTextInfo] or the class [HiRect] is not found,
    [analyzeTextDataNative] writes the pending exception out, clears it
    and returns NULL: nothing is pending when it returns. *)
Theorem failed_class_lookup_is_described_and_cleared
        (E : Engine) (handle : jlong) (arr : jarray) (w : World) :
  handle ≠ 0 →
  has_HiTextInfo (w_classes w) && has_HiRect (w_classes w) = false →
  ∃ w', analyzeTextDataNative E handle (Some arr) w = (Returned None, w')
        ∧ w_pending w' = false
        ∧ w_cerr w' = w_cerr w ++ [ExceptionTrace].
Proof.
  intros Hh Hc. destruct w as [[c1 c2 m1 m2] pe lo ut he ca jn ce].
  simpl in Hc.
  unfold Java_com_mwkg_hiocr_HiOCR_analyzeTextDataNative.
  rewrite (proj2 (Z.eqb_neq handle 0) Hh).
  destruct c1, c2; try discriminate Hc; run_top; by eexists.
Qed.

Lemma failed_class_lookup_is_described_and_cleared_witness :
  ∃ w', analyzeTextDataNative echo_engine 7 (Some [rec_of "a" 1 2 3 4])
          (fresh_world (mkClassPath true false true true))
        = (Returned None, w')
        ∧ w_pending w' = false
        ∧ w_cerr w'
          = w_cerr (fresh_world (mkClassPath true false true true))
            ++ [ExceptionTrace].
Proof.
  apply (failed_class_lookup_is_described_and_cleared echo_engine 7
           [rec_of "a" 1 2 3 4]
           (fresh_world (mkClassPath true false true true))).
  - lia.
  - reflexivity.
Defined.

Lemma failed_method_lookup_leaves_exception_pending_witness :
  ∃ w', analyzeTextDataNative echo_engine 7 (Some [rec_of "a" 1 2 3 4])
          (fresh_world (mkClassPath true true false true))
        = (Returned None, w')
        ∧ w_pending w' = true
        ∧ w_cerr w'
          = w_cerr (fresh_world (mkClassPath true true false true))
            ++ [MethodIdIsNull].
Proof.
  apply (failed_method_lookup_leaves_exception_pending echo_engine 7
           [rec_of "a" 1 2 3 4]
           (fresh_world (mkClassPath true true false true)));
    [lia|reflexivity..].
Defined.



(** X12: an element whose box or whose text is null, with no accessor
    throwing, is skipped without a word: the turn of the loop leaves the
    vector, the free store, the local references and [std::cerr] as they
    were, and nothing is pending. *)
Theorem null_box_or_text_is_skipped_silently
        (hiRectClass : jref jclass) (arr : jarray) (i : nat)
        (textPointers : list Z) (o : JTextInfo) (w : World) :
  w_pending w = false →
  arr !! i = Some (Some o) →
  to_native o = None →
  accessor_throws o = false →
  ∃ w',
    extract_element hiRectClass getText_id getBBox_id arr i textPointers w
    = (Returned textPointers, w')
    ∧ w_cerr w' = w_cerr w
    ∧ w_heap w' = w_heap w
    ∧ w_locals w' = w_locals w
    ∧ w_pending w' = false
    ∧ w_calls w' = w_calls w.
Proof.
  intros Hpe Hi Hnone Hquiet.
  destruct w as [cp pe lo ut he ca jn ce]. simpl in Hpe. subst pe.
  destruct o as [bb tx]. run. rewrite Hi. run.
  destruct bb as [[r|]|]; try discriminate Hquiet; run.
  - destruct tx as [[s|]|]; try discriminate Hquiet;
      try discriminate Hnone; run.
    eexists. split; [reflexivity|]. simpl. repeat split.
    apply take2_delete2.
  - eexists. split; [reflexivity|]. simpl. repeat split.
    apply take_delete.
Qed.

Lemma null_box_or_text_is_skipped_silently_witness :
  ∃ w',
    extract_element sample_class getText_id getBBox_id
      [Some (mkJTextInfo (JReturn (Some (mkJRect 1 2 3 4))) (JReturn None))]
      0 [] (fresh_world full_classpath)
    = (Returned [], w')
    ∧ w_cerr w' = w_cerr (fresh_world full_classpath)
    ∧ w_heap w' = w_heap (fresh_world full_classpath)
    ∧ w_locals w' = w_locals (fresh_world full_classpath)
    ∧ w_pending w' = false
    ∧ w_calls w' = w_calls (fresh_world full_classpath).
Proof.
  apply (null_box_or_text_is_skipped_silently sample_class
           [Some (mkJTextInfo (JReturn (Some (mkJRect 1 2 3 4)))
                    (JReturn None))]
           0 [] (mkJTextInfo (JReturn (Some (mkJRect 1 2 3 4))) (JReturn None))
           (fresh_world full_classpath)); reflexivity.
Defined.

(** X13: two engines created one after the other, the first not destroyed
    in between, have different handles; destroying the second leaves the
    first in the free store, configured as it was created. *)
Theorem engines_created_in_a_row_have_distinct_handles
        (E : Engine) (scanType1 scanType2 : jlong)
        (licenseKey1 licenseKey2 : string)
        (w : World) (handle1 handle2 : jlong) (w1 w2 : World) :
  createNativeAnalyzer E scanType1 licenseKey1 w = (Returned handle1, w1) →
  createNativeAnalyzer E scanType2 licenseKey2 w1 = (Returned handle2, w2) →
  handle1 ≠ handle2
  ∧ ∃ w3,
      destroyNativeAnalyzer handle2 w2 = (Returned tt, w3)
      ∧ w_heap w3 !! handle1 = Some (OAnalyzer scanType1 (c_str licenseKey1))
      ∧ w_heap w3 !! handle2 = None.
Proof.
  intros Hc1 Hc2.
  destruct (create_run E scanType1 licenseKey1 w)
    as (r1 & w1' & Hrun1 & _ & _ & _ & _ & Hres1).
  pose proof (eq_trans (eq_sym Hc1) Hrun1) as Heq.
  injection Heq as <- <-. destruct Hres1 as [-> Hheap1].
  destruct (create_run E scanType2 licenseKey2 w1)
    as (r2 & w2' & Hrun2 & _ & _ & _ & _ & Hres2).
  pose proof (eq_trans (eq_sym Hc2) Hrun2) as Heq.
  injection Heq as <- <-. destruct Hres2 as [-> Hheap2].
  assert (new_addr (w_heap w) ≠ new_addr (w_heap w1)) as Hne.
  { intros Heq. pose proof (new_addr_fresh (w_heap w1)) as Hfresh.
    rewrite <- Heq, Hheap1, lookup_insert_eq in Hfresh. done. }
  split; [done|].
  rewrite destroy_run by apply new_addr_not_null.
  eexists. split; [reflexivity|].
  destruct w2 as [cp2 pe2 lo2 ut2 he2 ca2 jn2 ce2]. simpl in *. subst he2.
  split; [|apply lookup_delete_eq].
  rewrite lookup_delete_ne, lookup_insert_ne by done.
  rewrite Hheap1. apply lookup_insert_eq.
Qed.

Lemma engines_created_in_a_row_have_distinct_handles_witness :
  1 ≠ 2
  ∧ ∃ w3,
      destroyNativeAnalyzer 2
        (createNativeAnalyzer echo_engine 3 "other" world_with_engine).2
      = (Returned tt, w3)
      ∧ w_heap w3 !! 1 = Some (OAnalyzer 2 (c_str "key"))
      ∧ w_heap w3 !! 2 = None.
Proof.
  apply (engines_created_in_a_row_have_distinct_handles echo_engine 2 3
           "key" "other" (fresh_world full_classpath) 1 2 world_with_engine).
  - vm_compute. reflexivity.
  - vm_compute. reflexivity.
Defined.
